(** * analisis_ventas: a sales dashboard over a dataframe

    A shallow embedding of [analisis_ventas.py]: the style configurator
    ([set_default_style]), the three panel renderers
    ([plot_ventas_tiempo], [plot_ventas_por_categoria],
    [plot_participacion_pie]) and the orchestrator ([generar_dashboard]),
    together with the part of the dataframe and plotting libraries they
    call: typed columns, group-by-and-sum, sorting, positional slicing,
    label assignment on a series, and the drawing surfaces as records.

    Modelling conventions.
    - Amounts are exact integers ([Z]); the mean is an exact rational.
      Machine overflow and binary floating point are outside the model.
    - Cells are never missing: a column is a list of values of one type.
    - Python objects that are mutated and shared (the caller's dataframe,
      the plotting library's global parameters and figure registry) live
      in an explicit store threaded through a state-and-error monad. *)

From Stdlib Require Import QArith Qabs Ascii.
From stdpp Require Import gmap strings list fin_maps sorting pretty.

Local Open Scope Z_scope.

(** ** Values and columns *)

(** A cell: a string (object dtype), an integer (int64 dtype) or a
    timestamp (datetime64 dtype, as a number of time units since the
    epoch). *)
Inductive value :=
  | VStr (s : string)
  | VInt (z : Z)
  | VDate (t : Z).

#[global] Instance value_eq_dec : EqDecision value.
Proof. solve_decision. Defined.

(** A column carries its dtype in its constructor. *)
Inductive column :=
  | ColStr (l : list string)
  | ColInt (l : list Z)
  | ColDate (l : list Z).

#[global] Instance column_eq_dec : EqDecision column.
Proof. solve_decision. Defined.

Definition col_values (c : column) : list value :=
  match c with
  | ColStr l => VStr <$> l
  | ColInt l => VInt <$> l
  | ColDate l => VDate <$> l
  end.

Definition col_len (c : column) : nat := length (col_values c).

(** [np.issubdtype(col.dtype, np.datetime64)] *)
Definition is_datetime (c : column) : bool :=
  match c with ColDate _ => true | _ => false end.

(** ** The order on labels used by [sort_index] *)

(** Strings compare lexicographically by character code. *)
Definition str_le (a b : string) : Prop := String.leb a b = true.

(** Labels of one column share a constructor; across constructors the
    order is strings, then integers, then timestamps, which makes the
    relation total. *)
Definition value_le (a b : value) : Prop :=
  match a, b with
  | VStr x, VStr y => str_le x y
  | VStr _, _ => True
  | VInt _, VStr _ => False
  | VInt x, VInt y => (x ≤ y)%Z
  | VInt _, VDate _ => True
  | VDate x, VDate y => (x ≤ y)%Z
  | VDate _, _ => False
  end.

#[global] Instance value_le_dec : RelDecision value_le.
Proof.
  intros [x|x|x] [y|y|y]; simpl; unfold str_le; apply _.
Defined.

(** Entries of a series compare by label. *)
Definition entry_le (a b : value * Z) : Prop := value_le a.1 b.1.

#[global] Instance entry_le_dec : RelDecision entry_le.
Proof. intros a b. unfold entry_le. apply _. Defined.

(** ** Errors and the error monad *)

Inductive error :=
  | KeyError (col : string)
  | TypeError
  | ValueError (msg : string)
  | DateParseError (s : string).

Inductive res (A : Type) :=
  | Ok (a : A)
  | Err (e : error).
Arguments Ok {A} a.
Arguments Err {A} e.

#[global] Instance res_ret : MRet res := λ A a, Ok a.
#[global] Instance res_bind : MBind res := λ A B f m,
  match m with
  | Ok a => f a
  | Err e => Err e
  end.

(** ** Series: an index of labels with integer values *)

Definition Series : Type := list (value * Z).

Definition Zsum (l : list Z) : Z := foldr Z.add 0%Z l.

(** [s.index] and [s.values] *)
Definition index (s : Series) : list value := s.*1.
Definition values (s : Series) : list Z := s.*2.

(** [s.sum()] *)
Definition series_sum (s : Series) : Z := Zsum (values s).

(** A Python slice bound [n] on a sequence of length [len]: negative
    bounds count from the end, and both ends are clamped. *)
Definition slice_bound (len : nat) (n : Z) : nat :=
  if (n <? 0)%Z then Z.to_nat (Z.max 0 (Z.of_nat len + n))
  else Z.to_nat (Z.min n (Z.of_nat len)).

(** [s.head(n)], which is [s.iloc[:n]] *)
Definition head (n : Z) (s : Series) : Series :=
  take (slice_bound (length s) n) s.

(** [s.iloc[n:]] *)
Definition iloc_from (n : Z) (s : Series) : Series :=
  drop (slice_bound (length s) n) s.

(** [s[k] = v]: overwrite the entry labelled [k] when there is one,
    append a new entry otherwise. *)
Fixpoint setitem (k : value) (v : Z) (s : Series) : Series :=
  match s with
  | [] => [(k, v)]
  | (k', x) :: r =>
      if decide (k' = k) then (k', v) :: r else (k', x) :: setitem k v r
  end.

(** [s.sort_values(ascending=False)]: entries with equal values keep
    their index order. *)
Fixpoint insert_desc (e : value * Z) (s : Series) : Series :=
  match s with
  | [] => [e]
  | e' :: r => if (e'.2 <=? e.2)%Z then e :: s else e' :: insert_desc e r
  end.

Definition sort_values_desc (s : Series) : Series := foldr insert_desc [] s.

(** [s.sort_index()] *)
Definition sort_index (s : Series) : Series :=
  merge_sort entry_le s.

(** The rows of one group. *)
Definition group_rows (k : value) (rows : list (value * Z)) : list (value * Z) :=
  filter (λ r, r.1 = k) rows.

(** [groupby(key)[val].sum()] on the rows [(key, val)]: one entry per
    distinct key, keys ascending, each with the sum of its group. *)
Definition group_sum (rows : list (value * Z)) : Series :=
  (λ k, (k, Zsum ((group_rows k rows).*2))) <$>
    merge_sort value_le (remove_dups (rows.*1)).

(** [s.nunique()] *)
Definition nunique (l : list value) : nat := length (remove_dups l).

(** [s.mean()]: not a number on an empty series. *)
Definition mean (s : Series) : option Q :=
  match s with
  | [] => None
  | _ => Some (Qred (series_sum s # Pos.of_nat (length s)))
  end.

(** ** Dataframes *)

Abbreviation DataFrame := (gmap string column).

(** [col in df.columns] *)
Definition has_column (col : string) (df : DataFrame) : bool :=
  bool_decide (is_Some (df !! col)).

(** [df[col]] *)
Definition getitem (df : DataFrame) (col : string) : res column :=
  match df !! col with
  | Some c => Ok c
  | None => Err (KeyError col)
  end.

(** Only integer columns can be summed. *)
Definition numeric (c : column) : res (list Z) :=
  match c with
  | ColInt l => Ok l
  | _ => Err TypeError
  end.

(** [df[col].sum()] *)
Definition column_sum (df : DataFrame) (col : string) : res Z :=
  c ← getitem df col;
  a ← numeric c;
  mret (Zsum a).

(** [df[col].nunique()] *)
Definition column_nunique (df : DataFrame) (col : string) : res nat :=
  c ← getitem df col;
  mret (nunique (col_values c)).

(** [df.groupby(by)[val].sum()] *)
Definition groupby_sum (df : DataFrame) (by_col val_col : string) : res Series :=
  k ← getitem df by_col;
  v ← getitem df val_col;
  a ← numeric v;
  mret (group_sum (zip (col_values k) a)).

(** A dataframe of [n] rows: every column has [n] cells. *)
Definition has_rows (n : nat) (df : DataFrame) : Prop :=
  map_Forall (λ _ c, col_len c = n) df.

(** [df.iloc[idx]]: the rows at the positions [idx], in that order. *)
Definition reindex {A} (idx : list nat) (l : list A) : list A :=
  omap (λ i, l !! i) idx.

Definition col_iloc (idx : list nat) (c : column) : column :=
  match c with
  | ColStr l => ColStr (reindex idx l)
  | ColInt l => ColInt (reindex idx l)
  | ColDate l => ColDate (reindex idx l)
  end.

Definition iloc (idx : list nat) (df : DataFrame) : DataFrame :=
  col_iloc idx <$> df.

(** ** The date library

    The generic date parser behind [pd.to_datetime] and the printing of a
    timestamp behind [astype(str)] belong to the dataframe library; the
    development is parametric in them. *)
Class DateLib := {
  to_timestamp : string → option Z;
  date_label : Z → string;
}.

(** A small instance for running examples: an ISO date [YYYY-MM-DD] is
    read as the number [YYYYMMDD] and printed as that number. *)
Definition digit_of (c : Ascii.ascii) : option Z :=
  let n := Z.of_N (Ascii.N_of_ascii c) in
  if bool_decide (48 ≤ n ≤ 57)%Z then Some (n - 48)%Z else None.

Fixpoint read_digits (acc : Z) (s : string) : option Z :=
  match s with
  | EmptyString => Some acc
  | String c r =>
      if Ascii.eqb c "-"%char then read_digits acc r
      else d ← digit_of c; read_digits (10 * acc + d)%Z r
  end.

Definition iso_dates : DateLib := {|
  to_timestamp s := match s with EmptyString => None | _ => read_digits 0 s end;
  date_label t := pretty t;
|}.

(** ** Number formatting *)

Definition nl : string := String (Ascii.ascii_of_nat 10) EmptyString.

(** Insert a comma after every third digit, counting from the right;
    the digits come least significant first. *)
Fixpoint commas (n : nat) (rev_digits : list Ascii.ascii) : list Ascii.ascii :=
  match rev_digits with
  | [] => []
  | c :: r =>
      match n with
      | O => ","%char :: c :: commas 2 r
      | S n' => c :: commas n' r
      end
  end.

Definition thousands (s : string) : string :=
  String.string_of_list_ascii (rev (commas 3 (rev (String.list_ascii_of_string s)))).

(** Round a non-negative rational to the nearest integer, ties to even. *)
Definition round_half_even (q : Q) : Z :=
  let n := Qnum q in
  let d := Z.pos (Qden q) in
  let k := (n / d)%Z in
  let r := (n mod d)%Z in
  if (2 * r <? d)%Z then k
  else if (d <? 2 * r)%Z then (k + 1)%Z
  else if Z.even k then k else (k + 1)%Z.

(** The format [{x:,.0f}] *)
Definition format_comma_0f (q : Q) : string :=
  (if (Qnum q <? 0)%Z then "-" else "") +:+
  thousands (pretty (round_half_even (Qabs q))).

Definition format_float (x : option Q) : string :=
  match x with
  | Some q => format_comma_0f q
  | None => "nan"
  end.

(** ** Corporate colours and default style *)

Inductive rcvalue :=
  | RcInt (z : Z)
  | RcNum (q : Q)
  | RcSize (w h : Z)
  | RcStr (s : string)
  | RcBool (b : bool)
  | RcCycler (colors : list string).

Definition CORPORATE_COLORS : list string :=
  [ "#0B5FFF"; "#00B37E"; "#FFB020"; "#E11D48"; "#7C3AED"; "#06B6D4" ].

Definition DEFAULT_STYLE : gmap string rcvalue :=
  list_to_map
    [ ("figure.figsize", RcSize 12 7);
      ("axes.titlesize", RcInt 16);
      ("axes.labelsize", RcInt 12);
      ("xtick.labelsize", RcInt 10);
      ("ytick.labelsize", RcInt 10);
      ("legend.fontsize", RcInt 10);
      ("lines.linewidth", RcInt 2);
      ("grid.alpha", RcNum (25 # 100)) ].

(** ** Drawing surfaces *)

Inductive artist :=
  | Line2D (xs : list value) (ys : list Z) (marker : string)
  | Bars (xs : list string) (heights : list Z)
  | Wedges (x : list Z) (labels : list string) (autopct : string) (startangle : Z)
  | Text (x y : Q) (s : string) (va : string) (fontsize : Z) (family : string).

Record Axes := mkAxes {
  artists : list artist;
  title : string;
  ylabel : string;
  date_axis : bool;
  xtick_rotation : Z;
  xtick_ha : string;
  axis_on : bool;
}.

Definition blank_axes : Axes :=
  mkAxes [] "" "" false 0 "center" true.

Definition add_artist (a : artist) (ax : Axes) : Axes :=
  mkAxes (artists ax ++ [a]) (title ax) (ylabel ax) (date_axis ax)
         (xtick_rotation ax) (xtick_ha ax) (axis_on ax).

Definition set_title (t : string) (ax : Axes) : Axes :=
  mkAxes (artists ax) t (ylabel ax) (date_axis ax)
         (xtick_rotation ax) (xtick_ha ax) (axis_on ax).

Definition set_ylabel (l : string) (ax : Axes) : Axes :=
  mkAxes (artists ax) (title ax) l (date_axis ax)
         (xtick_rotation ax) (xtick_ha ax) (axis_on ax).

(** [AutoDateLocator] with [ConciseDateFormatter] on the x axis *)
Definition set_date_axis (ax : Axes) : Axes :=
  mkAxes (artists ax) (title ax) (ylabel ax) true
         (xtick_rotation ax) (xtick_ha ax) (axis_on ax).

(** [plt.setp(ax.get_xticklabels(), rotation=r, ha=h)] *)
Definition setp_xticklabels (r : Z) (h : string) (ax : Axes) : Axes :=
  mkAxes (artists ax) (title ax) (ylabel ax) (date_axis ax) r h (axis_on ax).

(** [ax.axis("off")] *)
Definition axis_off (ax : Axes) : Axes :=
  mkAxes (artists ax) (title ax) (ylabel ax) (date_axis ax)
         (xtick_rotation ax) (xtick_ha ax) false.

Record Figure := mkFigure {
  figsize : Z * Z;
  axs00 : Axes;
  axs01 : Axes;
  axs10 : Axes;
  axs11 : Axes;
  suptitle : option (string * Z);
  tight_layout_rect : option (Q * Q * Q * Q);
}.

(** ** The store and the state-and-error monad *)

Abbreviation loc := nat.

Record state := mkState {
  heap : gmap loc DataFrame;
  rcParams : gmap string rcvalue;
  open_figures : nat;
}.

Definition M (A : Type) : Type := state → res A * state.

#[global] Instance M_ret : MRet M := λ A a st, (Ok a, st).
#[global] Instance M_bind : MBind M := λ A B f m st,
  match m st with
  | (Ok a, st') => f a st'
  | (Err e, st') => (Err e, st')
  end.

Definition lift {A} (r : res A) : M A := λ st, (r, st).
Definition raise {A} (e : error) : M A := λ st, (Err e, st).

(** Reading through a reference. A reference that was never allocated
    has no counterpart in the program; the model answers [KeyError]. *)
Definition deref (l : loc) : M DataFrame := λ st,
  match heap st !! l with
  | Some d => (Ok d, st)
  | None => (Err (KeyError "<unallocated>"), st)
  end.

Definition alloc (d : DataFrame) : M loc := λ st,
  let l := fresh (dom (heap st)) in
  (Ok l, mkState (<[l := d]> (heap st)) (rcParams st) (open_figures st)).

(** [df.copy()]: a new object with the same columns. *)
Definition frame_copy (l : loc) : M loc :=
  d ← deref l; alloc d.

(** [df[col] = c], in place. *)
Definition setcol (l : loc) (col : string) (c : column) : M unit := λ st,
  match heap st !! l with
  | Some d =>
      (Ok (), mkState (<[l := <[col := c]> d]> (heap st)) (rcParams st) (open_figures st))
  | None => (Err (KeyError "<unallocated>"), st)
  end.

(** [plt.subplots(2, 2, figsize=...)]: registers a new figure with the
    plotting library and hands out four blank surfaces. *)
Definition plt_subplots_2x2 : M (Axes * Axes * Axes * Axes) := λ st,
  (Ok (blank_axes, blank_axes, blank_axes, blank_axes),
   mkState (heap st) (rcParams st) (S (open_figures st))).

(** ** Style configuration *)

(** [None] stands for an omitted argument. [rcParams.update] overwrites
    the entries named in [style_opts] and keeps the others. *)
Definition set_default_style (colors : option (list string))
    (style_opts : option (gmap string rcvalue)) : M unit := λ st,
  let colors := match colors with None => CORPORATE_COLORS | Some c => c end in
  let style_opts := match style_opts with None => DEFAULT_STYLE | Some o => o end in
  let rc := style_opts ∪ rcParams st in
  let rc := <["axes.prop_cycle" := RcCycler colors]> rc in
  let rc := <["figure.facecolor" := RcStr "white"]> rc in
  let rc := <["axes.facecolor" := RcStr "#FBFBFD"]> rc in
  let rc := <["grid.color" := RcStr "#DDE6F6"]> rc in
  let rc := <["axes.edgecolor" := RcStr "#2B2B2B"]> rc in
  let rc := <["axes.grid" := RcBool true]> rc in
  (Ok (), mkState (heap st) rc (open_figures st)).

Section Renderers.
Context `{DateLib}.

(** [index.astype(str)] on one label *)
Definition astype_str (v : value) : string :=
  match v with
  | VStr s => s
  | VInt z => pretty z
  | VDate t => date_label t
  end.

(** [pd.to_datetime(col)] *)
Fixpoint parse_dates (l : list string) : res (list Z) :=
  match l with
  | [] => Ok []
  | s :: r =>
      match to_timestamp s with
      | Some t => ts ← parse_dates r; mret (t :: ts)
      | None => Err (DateParseError s)
      end
  end.

Definition to_datetime (c : column) : res column :=
  match c with
  | ColStr l => ts ← parse_dates l; mret (ColDate ts)
  | ColInt l => Ok (ColDate l)
  | ColDate l => Ok (ColDate l)
  end.

Definition _format_eje_fecha (ax : Axes) (fecha_col : string) : Axes :=
  let ax := set_date_axis ax in
  setp_xticklabels 30 "right" ax.

Definition plot_ventas_tiempo (ax : Axes) (df : DataFrame)
    (fecha_col ventas_col : string) : res Axes :=
  s ← groupby_sum df fecha_col ventas_col;
  let series := sort_index s in
  let ax := add_artist (Line2D (index series) (values series) "o") ax in
  let ax := set_title "Ventas en el tiempo" ax in
  let ax := set_ylabel "Ventas" ax in
  mret (_format_eje_fecha ax fecha_col).

Definition plot_ventas_por_categoria (ax : Axes) (df : DataFrame)
    (cat_col ventas_col : string) (top_n : Z) : res Axes :=
  s ← groupby_sum df cat_col ventas_col;
  let agg := sort_values_desc s in
  let agg_to_plot := head top_n agg in
  let ax := add_artist (Bars (astype_str <$> index agg_to_plot) (values agg_to_plot)) ax in
  let ax := set_title ("Top " +:+ pretty (length agg_to_plot) +:+ " categorías por ventas") ax in
  let ax := set_ylabel "Ventas" ax in
  mret (setp_xticklabels 45 "right" ax).

Definition plot_participacion_pie (ax : Axes) (df : DataFrame)
    (cat_col ventas_col : string) (top_n : Z) : res Axes :=
  s ← groupby_sum df cat_col ventas_col;
  let agg := sort_values_desc s in
  let top := head top_n agg in
  let others := series_sum (iloc_from top_n agg) in
  let top := if (0 <? others)%Z then setitem (VStr "Otros") others top else top in
  let ax := add_artist (Wedges (values top) (astype_str <$> index top) "%1.1f%%" 140) ax in
  mret (set_title "Participación por categoría" ax).

(** ** The dashboard *)

(** The message of the error raised when a column is missing. *)
Definition missing_columns_message (fecha_col cat_col ventas_col : string) : string :=
  "El DataFrame debe contener las columnas: " +:+ fecha_col +:+ ", " +:+
  cat_col +:+ ", " +:+ ventas_col.

(** [total_ventas = df_copy[ventas_col].sum()] *)
Definition total_ventas (df : DataFrame) (ventas_col : string) : res Z :=
  column_sum df ventas_col.

(** [promedio_diario = df_copy.groupby(fecha_col)[ventas_col].sum().mean()] *)
Definition promedio_diario (df : DataFrame) (fecha_col ventas_col : string)
    : res (option Q) :=
  s ← groupby_sum df fecha_col ventas_col;
  mret (mean s).

(** The text block [texto_kpi], built from the two statistics and the
    two distinct counts. *)
Definition texto_kpi (df : DataFrame) (fecha_col cat_col ventas_col : string)
    : res string :=
  total ← total_ventas df ventas_col;
  promedio ← promedio_diario df fecha_col ventas_col;
  dias ← column_nunique df fecha_col;
  categorias ← column_nunique df cat_col;
  mret ("Total ventas: " +:+ format_comma_0f (inject_Z total) +:+ nl +:+
        "Promedio diario: " +:+ format_float promedio +:+ nl +:+
        "Días: " +:+ pretty dias +:+ nl +:+
        "Categorías: " +:+ pretty categorias).

Definition generar_dashboard (df : loc) (fecha_col cat_col ventas_col : string)
    : M Figure :=
  d ← deref df;
  if negb (has_column fecha_col d) || negb (has_column cat_col d)
     || negb (has_column ventas_col d)
  then raise (ValueError (missing_columns_message fecha_col cat_col ventas_col))
  else
    df_copy ← frame_copy df;
    c ← (dc ← deref df_copy; lift (getitem dc fecha_col));
    _ ← (if negb (is_datetime c)
         then c' ← lift (to_datetime c); setcol df_copy fecha_col c'
         else mret ());
    '(ax_time, ax_bar, ax_pie, ax_empty) ← plt_subplots_2x2;
    dc ← deref df_copy;
    ax_time ← lift (plot_ventas_tiempo ax_time dc fecha_col ventas_col);
    ax_bar ← lift (plot_ventas_por_categoria ax_bar dc cat_col ventas_col 8);
    ax_pie ← lift (plot_participacion_pie ax_pie dc cat_col ventas_col 6);
    texto ← lift (texto_kpi dc fecha_col cat_col ventas_col);
    let ax_empty := axis_off ax_empty in
    let ax_empty := add_artist (Text (2 # 100) (95 # 100) texto "top" 12 "monospace") ax_empty in
    mret (mkFigure (14, 9)%Z ax_time ax_bar ax_pie ax_empty
                   (Some ("Dashboard de Ventas", 20%Z))
                   (Some (0, 3 # 100, 1, 95 # 100)%Q)).

End Renderers.

(** ** The properties under study, as predicates on the renderers *)

Section Properties.
Context `{DateLib}.

(** The per-category sums in descending order, which both category
    renderers call [agg]. *)
Definition category_totals (df : DataFrame) (cat_col ventas_col : string)
    : res Series :=
  s ← groupby_sum df cat_col ventas_col;
  mret (sort_values_desc s).

(** The series that the pie renderer hands to [ax.pie]: the top
    entries and, when the rest sums to more than zero, the entry
    labelled "Otros". *)
Definition pie_series (agg : Series) (top_n : Z) : Series :=
  let top := head top_n agg in
  let others := series_sum (iloc_from top_n agg) in
  if (0 <? others)%Z then setitem (VStr "Otros") others top else top.

(** The surface after [ax.pie] has drawn the series [slices] and the
    title has been set. *)
Definition pie_panel (slices : Series) (ax : Axes) : Axes :=
  set_title "Participación por categoría"
    (add_artist (Wedges (values slices) (astype_str <$> index slices) "%1.1f%%" 140) ax).

(** The surface after [ax.bar] has drawn the series [bars] under the
    title "Top k ...". *)
Definition bar_panel (bars : Series) (k : Z) (ax : Axes) : Axes :=
  setp_xticklabels 45 "right"
    (set_ylabel "Ventas"
      (set_title ("Top " +:+ pretty k +:+ " categorías por ventas")
        (add_artist (Bars (astype_str <$> index bars) (values bars)) ax))).

(** The pie's slices add up to the sum of all per-category sums, which
    is the total of the amount column. *)
Definition pie_keeps_total (df : DataFrame) (cat_col ventas_col : string)
    (top_n : Z) : Prop :=
  ∀ ax, ∃ slices agg,
    plot_participacion_pie ax df cat_col ventas_col top_n = Ok (pie_panel slices ax) ∧
    category_totals df cat_col ventas_col = Ok agg ∧
    series_sum slices = series_sum agg ∧
    column_sum df ventas_col = Ok (series_sum agg).

(** The bar panel draws [k] bars under the title "Top k ...", where
    [k] is the minimum of [top_n] and the number of distinct
    categories. *)
Definition bar_title_counts_min (df : DataFrame) (cat_col ventas_col : string)
    (top_n : Z) : Prop :=
  ∀ ax, ∃ bars m,
    column_nunique df cat_col = Ok m ∧
    plot_ventas_por_categoria ax df cat_col ventas_col top_n =
      Ok (bar_panel bars (Z.min top_n (Z.of_nat m)) ax) ∧
    Z.of_nat (length bars) = Z.min top_n (Z.of_nat m).

(** The drawing part of the dashboard, on the working copy [dc]: what
    [generar_dashboard] does after the four surfaces are created. *)
Definition render_panels (dc : DataFrame) (fecha_col cat_col ventas_col : string)
    : res Figure :=
  ax_time ← plot_ventas_tiempo blank_axes dc fecha_col ventas_col;
  ax_bar ← plot_ventas_por_categoria blank_axes dc cat_col ventas_col 8;
  ax_pie ← plot_participacion_pie blank_axes dc cat_col ventas_col 6;
  texto ← texto_kpi dc fecha_col cat_col ventas_col;
  mret (mkFigure (14, 9)%Z ax_time ax_bar ax_pie
          (add_artist (Text (2 # 100) (95 # 100) texto "top" 12 "monospace")
                      (axis_off blank_axes))
          (Some ("Dashboard de Ventas", 20%Z))
          (Some (0, 3 # 100, 1, 95 # 100)%Q)).

End Properties.

(** ** Example tables *)

(** The table of the example scenario. *)
Definition ex_df : DataFrame :=
  list_to_map
    [ ("fecha", ColStr ["2024-01-01"; "2024-01-01"; "2024-01-02"]);
      ("categoria", ColStr ["A"; "B"; "A"]);
      ("ventas", ColInt [100; 50; 30]) ].

(** Its working copy, once the dates are parsed. *)
Definition ex_df_dates : DataFrame :=
  <["fecha" := ColDate [20240101; 20240101; 20240102]]> ex_df.

(** A table with a negative amount. *)
Definition ex_negative : DataFrame :=
  list_to_map
    [ ("fecha", ColDate [20240101; 20240101]);
      ("categoria", ColStr ["A"; "B"]);
      ("ventas", ColInt [100; -50]) ].

(** A table with a category that is itself called "Otros". *)
Definition ex_otros : DataFrame :=
  list_to_map
    [ ("fecha", ColDate [20240101; 20240101]);
      ("categoria", ColStr ["Otros"; "B"]);
      ("ventas", ColInt [100; 50]) ].

(** A table with three categories. *)
Definition ex_three : DataFrame :=
  list_to_map
    [ ("fecha", ColDate [20240101; 20240101; 20240102]);
      ("categoria", ColStr ["A"; "B"; "C"]);
      ("ventas", ColInt [30; 20; 10]) ].

(** A table without an amount column. *)
Definition ex_missing : DataFrame :=
  list_to_map
    [ ("fecha", ColStr ["2024-01-01"]);
      ("categoria", ColStr ["A"]) ].

(** A table with a date that does not parse. *)
Definition ex_bad_date : DataFrame :=
  list_to_map
    [ ("fecha", ColStr ["2024-01-01"; "hoy"; "2024-01-03"]);
      ("categoria", ColStr ["A"; "B"; "A"]);
      ("ventas", ColInt [100; 50; 30]) ].

(** A table with the three columns and no rows. *)
Definition ex_empty : DataFrame :=
  list_to_map
    [ ("fecha", ColStr []);
      ("categoria", ColStr []);
      ("ventas", ColInt []) ].

(** A store holding one dataframe at reference [0]. *)
Definition state_with (df : DataFrame) : state :=
  mkState {[ 0%nat := df ]} ∅ 0.

(** ** The parameters that [set_default_style] always sets itself *)

Definition fixed_style_keys : list string :=
  [ "axes.prop_cycle"; "figure.facecolor"; "axes.facecolor"; "grid.color";
    "axes.edgecolor"; "axes.grid" ].

(** ** The demonstration run

    The block under [if __name__ == "__main__"]. The current time and
    the stream of the random generator are parameters: [draw k] is the
    value of the [k]-th call of [rng.integers(50, 500)]. *)

(** One day, in the unit of the timestamps (nanoseconds). *)
Definition one_day : Z := 86400000000000.

(** [pd.date_range(end=today, periods=n)]: [n] consecutive days, the
    last one being [today]. *)
Definition date_range_end (today : Z) (periods : nat) : list Z :=
  (λ i, today - Z.of_nat (periods - 1 - i) * one_day) <$> seq 0 periods.

Definition categorias : list string := ["A"; "B"; "C"; "D"; "E"].

(** The two nested loops, day by day and category by category. *)
Definition demo_keys (fechas : list Z) : list (Z * string) :=
  f ← fechas; c ← categorias; [(f, c)].

(** [pd.DataFrame(data)] *)
Definition demo_frame (today : Z) (draw : nat → Z) : DataFrame :=
  let keys := demo_keys (date_range_end today 30) in
  list_to_map
    [ ("fecha", ColDate keys.*1);
      ("categoria", ColStr keys.*2);
      ("ventas", ColInt (draw <$> seq 0 (length keys))) ].

Definition main `{DateLib} (today : Z) (draw : nat → Z) : M Figure :=
  _ ← set_default_style None None;
  df_demo ← alloc (demo_frame today draw);
  generar_dashboard df_demo "fecha" "categoria" "ventas".

(** * Facts about the label order *)

Module LabelOrder.

Lemma ascii_compare_lt_trans (a b c : Ascii.ascii) :
  Ascii.compare a b = Lt → Ascii.compare b c = Lt → Ascii.compare a c = Lt.
Proof.
  unfold Ascii.compare. rewrite !N.compare_lt_iff. lia.
Qed.

Lemma compare_lt_trans (a b c : string) :
  String.compare a b = Lt → String.compare b c = Lt → String.compare a c = Lt.
Proof.
  revert b c. induction a as [|x a IH]; intros [|y b] [|z c]; simpl; try done.
  destruct (Ascii.compare x y) eqn:Hxy; try done.
  - apply Ascii.compare_eq_iff in Hxy as ->.
    destruct (Ascii.compare y z) eqn:Hyz; try done. apply IH.
  - destruct (Ascii.compare y z) eqn:Hyz; try done.
    + apply Ascii.compare_eq_iff in Hyz as <-. by rewrite Hxy.
    + intros _ _. by rewrite (ascii_compare_lt_trans x y z).
Qed.

Lemma str_le_trans (a b c : string) : str_le a b → str_le b c → str_le a c.
Proof.
  unfold str_le, String.leb.
  destruct (String.compare a b) eqn:Hab; try done; intros _.
  - by apply String.compare_eq_iff in Hab as ->.
  - destruct (String.compare b c) eqn:Hbc; try done; intros _.
    + apply String.compare_eq_iff in Hbc as <-. by rewrite Hab.
    + by rewrite (compare_lt_trans a b c).
Qed.

#[global] Instance value_le_total : Total value_le.
Proof.
  intros [x|x|x] [y|y|y]; simpl; auto; try lia.
  apply String.leb_total.
Qed.

#[global] Instance value_le_trans : Transitive value_le.
Proof.
  intros [x|x|x] [y|y|y] [z|z|z]; simpl; try done; try lia.
  apply str_le_trans.
Qed.

#[global] Instance value_le_antisymm : AntiSymm (=) value_le.
Proof.
  intros [x|x|x] [y|y|y]; simpl; try done.
  - intros H1 H2. f_equal. by apply String.leb_antisym.
  - intros. f_equal. lia.
  - intros. f_equal. lia.
Qed.

#[global] Instance entry_le_total : Total entry_le.
Proof. intros a b. apply value_le_total. Qed.

#[global] Instance entry_le_trans : Transitive entry_le.
Proof. intros a b c. apply value_le_trans. Qed.

End LabelOrder.

(** * Facts about series *)

Section SeriesFacts.
Implicit Types (s : Series) (rows : list (value * Z)) (k : value) (n : Z).

Lemma Zsum_cons (x : Z) (l : list Z) : Zsum (x :: l) = (x + Zsum l)%Z.
Proof. done. Qed.

Lemma Zsum_app (l1 l2 : list Z) : Zsum (l1 ++ l2) = (Zsum l1 + Zsum l2)%Z.
Proof. induction l1 as [|x l1 IH]; simpl; lia. Qed.

#[global] Instance Zsum_Permutation : Proper ((≡ₚ) ==> (=)) Zsum.
Proof. induction 1; simpl; lia. Qed.

Lemma series_sum_app s1 s2 :
  series_sum (s1 ++ s2) = (series_sum s1 + series_sum s2)%Z.
Proof. unfold series_sum, values. by rewrite fmap_app, Zsum_app. Qed.

#[global] Instance series_sum_Permutation : Proper ((≡ₚ) ==> (=)) series_sum.
Proof. intros s1 s2 Hp. unfold series_sum, values. by rewrite Hp. Qed.

(** *** Positional slicing *)

Lemma head_iloc_from n s : head n s ++ iloc_from n s = s.
Proof. apply take_drop. Qed.

Lemma series_sum_split n s :
  (series_sum (head n s) + series_sum (iloc_from n s))%Z = series_sum s.
Proof. by rewrite <- series_sum_app, head_iloc_from. Qed.

Lemma slice_bound_nonneg (len : nat) n :
  (0 ≤ n)%Z → slice_bound len n = Z.to_nat (Z.min n (Z.of_nat len)).
Proof. intros Hn. unfold slice_bound. case_match; [lia|done]. Qed.

Lemma length_head_nonneg n s :
  (0 ≤ n)%Z → Z.of_nat (length (head n s)) = Z.min n (Z.of_nat (length s)).
Proof.
  intros Hn. unfold head. rewrite length_take, slice_bound_nonneg by done. lia.
Qed.

Lemma slice_bound_0 (len : nat) : slice_bound len 0 = 0%nat.
Proof. rewrite slice_bound_nonneg by done. lia. Qed.

Lemma head_0 s : head 0 s = [].
Proof. unfold head. by rewrite slice_bound_0. Qed.

Lemma iloc_from_0 s : iloc_from 0 s = s.
Proof. unfold iloc_from. by rewrite slice_bound_0. Qed.

Lemma head_all n s : (Z.of_nat (length s) ≤ n)%Z → head n s = s.
Proof.
  intros Hn. unfold head. rewrite slice_bound_nonneg by lia.
  apply take_ge. lia.
Qed.

Lemma iloc_from_all n s : (Z.of_nat (length s) ≤ n)%Z → iloc_from n s = [].
Proof.
  intros Hn. unfold iloc_from. rewrite slice_bound_nonneg by lia.
  apply drop_ge. lia.
Qed.

(** *** Label assignment *)

Lemma setitem_fresh k v s : k ∉ index s → setitem k v s = s ++ [(k, v)].
Proof.
  unfold index. induction s as [|[k' x] s IH]; simpl; [done|].
  rewrite not_elem_of_cons. intros [Hne Hs].
  case_decide; [congruence|]. by rewrite IH.
Qed.

Lemma setitem_present k v s :
  k ∈ index s → length (setitem k v s) = length s.
Proof.
  unfold index. induction s as [|[k' x] s IH]; simpl.
  - by intros ?%elem_of_nil.
  - case_decide; [done|]. rewrite elem_of_cons. intros [->|Hs]; [done|].
    simpl. by rewrite IH.
Qed.

Lemma setitem_elem k v s : (k, v) ∈ setitem k v s.
Proof.
  induction s as [|[k' x] s IH]; simpl.
  - apply list_elem_of_here.
  - case_decide as Hk.
    + subst. apply list_elem_of_here.
    + by apply list_elem_of_further.
Qed.

Lemma setitem_index_nodup k v s : NoDup (index s) → NoDup (index (setitem k v s)).
Proof.
  unfold index. induction s as [|[k' x] s IH]; simpl.
  - intros _. apply NoDup_singleton.
  - rewrite NoDup_cons. intros [Hk' Hs]. case_decide as Hk.
    + simpl. by apply NoDup_cons.
    + simpl. apply NoDup_cons. split; [|by apply IH].
      clear IH Hs. induction s as [|[k'' y] s IH]; simpl in *.
      * rewrite list_elem_of_singleton. congruence.
      * rewrite not_elem_of_cons in Hk'. destruct Hk' as [Hne Hk'].
        case_decide; simpl; rewrite not_elem_of_cons; auto.
Qed.

(** *** Sorting by value *)

Lemma insert_desc_Permutation e s : insert_desc e s ≡ₚ e :: s.
Proof.
  induction s as [|e' s IH]; simpl; [done|].
  case_match; [done|]. rewrite IH. apply Permutation_swap.
Qed.

Lemma sort_values_desc_Permutation s : sort_values_desc s ≡ₚ s.
Proof.
  induction s as [|e s IH]; simpl; [done|].
  by rewrite insert_desc_Permutation, IH.
Qed.

Lemma series_sum_sort_values_desc s :
  series_sum (sort_values_desc s) = series_sum s.
Proof. by rewrite sort_values_desc_Permutation. Qed.

Lemma length_sort_values_desc s : length (sort_values_desc s) = length s.
Proof. by rewrite sort_values_desc_Permutation. Qed.

Lemma insert_desc_sorted e s :
  Sorted (λ a b, (b.2 ≤ a.2)%Z) s → Sorted (λ a b, (b.2 ≤ a.2)%Z) (insert_desc e s).
Proof.
  induction 1 as [|e' s Hs IH Hhd]; simpl.
  - by repeat constructor.
  - destruct (Z.leb_spec e'.2 e.2).
    + constructor; [by constructor|]. by constructor.
    + constructor; [done|].
      destruct Hhd as [|e'' s' Hle]; simpl.
      * constructor. lia.
      * case_match; constructor; simpl; lia.
Qed.

Lemma sort_values_desc_sorted s :
  Sorted (λ a b, (b.2 ≤ a.2)%Z) (sort_values_desc s).
Proof.
  induction s as [|e s IH]; simpl; [constructor|]. by apply insert_desc_sorted.
Qed.

End SeriesFacts.

(** * Facts about grouping *)

Section GroupFacts.
Implicit Types (rows : list (value * Z)) (k : value) (ks : list value).

Lemma group_rows_cons k k0 v rows :
  group_rows k ((k0, v) :: rows) =
  if decide (k0 = k) then (k0, v) :: group_rows k rows else group_rows k rows.
Proof. unfold group_rows. by rewrite filter_cons. Qed.

Lemma Zsum_zeros ks : Zsum ((λ _, 0%Z) <$> ks) = 0%Z.
Proof. induction ks as [|k ks IH]; csimpl; rewrite ?Zsum_cons; lia. Qed.

Lemma Zsum_fmap_add (f g : value → Z) ks :
  Zsum ((λ k, f k + g k)%Z <$> ks) = (Zsum (f <$> ks) + Zsum (g <$> ks))%Z.
Proof. induction ks as [|k ks IH]; csimpl; rewrite ?Zsum_cons; lia. Qed.

Lemma Zsum_indicator_notin k0 (v : Z) ks :
  k0 ∉ ks → Zsum ((λ k, if decide (k0 = k) then v else 0%Z) <$> ks) = 0%Z.
Proof.
  induction ks as [|k ks IH]; csimpl; rewrite ?Zsum_cons; [done|].
  rewrite not_elem_of_cons. intros [Hne Hks].
  case_decide; [done|]. rewrite IH by done. lia.
Qed.

Lemma Zsum_indicator k0 (v : Z) ks :
  NoDup ks → k0 ∈ ks →
  Zsum ((λ k, if decide (k0 = k) then v else 0%Z) <$> ks) = v.
Proof.
  induction 1 as [|k ks Hk Hnd IH]; csimpl; rewrite ?Zsum_cons.
  - by intros ?%elem_of_nil.
  - rewrite elem_of_cons. case_decide as Heq.
    + subst k. intros _. rewrite Zsum_indicator_notin by done. lia.
    + intros [->|Hin]; [done|]. rewrite IH by done. lia.
Qed.

(** The groups partition the rows: summing the group totals over any
    duplicate-free list of keys that covers the rows gives the total. *)
Lemma group_totals_sum ks rows :
  NoDup ks → (∀ k, k ∈ rows.*1 → k ∈ ks) →
  Zsum ((λ k, Zsum (group_rows k rows).*2) <$> ks) = Zsum rows.*2.
Proof.
  intros Hnd. induction rows as [|[k0 v] rows IH]; intros Hcov.
  - apply Zsum_zeros.
  - rewrite <- (list_fmap_ext
      (λ k, (if decide (k0 = k) then v else 0) + Zsum (group_rows k rows).*2)%Z
      _ ks).
    + rewrite Zsum_fmap_add, IH, Zsum_indicator; [done|done| |].
      * apply Hcov. simpl. apply list_elem_of_here.
      * intros k Hk. apply Hcov. simpl. by apply list_elem_of_further.
    + intros _ k _. rewrite group_rows_cons. by case_decide.
Qed.

Lemma index_group_sum rows :
  index (group_sum rows) = merge_sort value_le (remove_dups rows.*1).
Proof.
  unfold index, group_sum. rewrite <- list_fmap_compose.
  by rewrite <- (list_fmap_id (merge_sort _ _)) at 2.
Qed.

Lemma values_group_sum rows :
  values (group_sum rows) =
  (λ k, Zsum (group_rows k rows).*2) <$> merge_sort value_le (remove_dups rows.*1).
Proof. unfold values, group_sum. by rewrite <- list_fmap_compose. Qed.

Lemma index_group_sum_Permutation rows :
  index (group_sum rows) ≡ₚ remove_dups rows.*1.
Proof. rewrite index_group_sum. apply merge_sort_Permutation. Qed.

Lemma index_group_sum_NoDup rows : NoDup (index (group_sum rows)).
Proof. rewrite index_group_sum_Permutation. apply NoDup_remove_dups. Qed.

Lemma index_group_sum_sorted rows : Sorted value_le (index (group_sum rows)).
Proof. rewrite index_group_sum. apply Sorted_merge_sort, _. Qed.

Lemma elem_of_index_group_sum k rows :
  k ∈ index (group_sum rows) ↔ k ∈ rows.*1.
Proof. by rewrite index_group_sum_Permutation, elem_of_remove_dups. Qed.

(** Summing the per-group sums gives back the sum of the column. *)
Lemma series_sum_group_sum rows : series_sum (group_sum rows) = Zsum rows.*2.
Proof.
  unfold series_sum. rewrite values_group_sum. apply group_totals_sum.
  - rewrite merge_sort_Permutation. apply NoDup_remove_dups.
  - intros k Hk. by rewrite merge_sort_Permutation, elem_of_remove_dups.
Qed.

(** One entry per distinct key. *)
Lemma length_group_sum rows : length (group_sum rows) = nunique rows.*1.
Proof.
  unfold group_sum, nunique. by rewrite length_fmap, merge_sort_Permutation.
Qed.

Lemma group_sum_nil rows : group_sum rows = [] → rows = [].
Proof.
  intros Hnil. destruct rows as [|[k v] rows]; [done|].
  assert (k ∈ index (group_sum ((k, v) :: rows))) as Hin.
  { apply elem_of_index_group_sum. simpl. apply list_elem_of_here. }
  rewrite Hnil in Hin. by apply elem_of_nil in Hin.
Qed.

(** Grouping does not depend on the order of the rows. *)
Lemma group_sum_Permutation rows rows' :
  rows ≡ₚ rows' → group_sum rows = group_sum rows'.
Proof.
  intros Hp. unfold group_sum.
  assert (merge_sort value_le (remove_dups rows.*1) =
          merge_sort value_le (remove_dups rows'.*1)) as ->.
  { apply (Sorted_unique value_le); [apply Sorted_merge_sort, _..|].
    rewrite !merge_sort_Permutation.
    apply NoDup_Permutation; [apply NoDup_remove_dups..|].
    intros k. by rewrite !elem_of_remove_dups, Hp. }
  apply list_fmap_ext. intros _ k _. f_equal.
  unfold group_rows. by rewrite Hp.
Qed.

End GroupFacts.

(** * Facts about dataframes *)

Section FrameFacts.
Implicit Types (df : DataFrame) (c : column) (idx : list nat).

Lemma col_len_int (a : list Z) : col_len (ColInt a) = length a.
Proof. unfold col_len. simpl. apply length_fmap. Qed.

Lemma has_rows_lookup n df col c :
  has_rows n df → df !! col = Some c → col_len c = n.
Proof. intros Hn Hc. by apply (map_Forall_lookup_1 _ _ _ _ Hn Hc). Qed.

Lemma has_column_true col df : has_column col df = true ↔ is_Some (df !! col).
Proof. unfold has_column. by rewrite bool_decide_eq_true. Qed.

Lemma has_column_false col df : has_column col df = false ↔ df !! col = None.
Proof.
  unfold has_column. by rewrite bool_decide_eq_false, eq_None_not_Some.
Qed.

Lemma groupby_sum_ok df by_col val_col c a :
  df !! by_col = Some c → df !! val_col = Some (ColInt a) →
  groupby_sum df by_col val_col = Ok (group_sum (zip (col_values c) a)).
Proof. intros Hk Hv. unfold groupby_sum, getitem. by rewrite Hk, Hv. Qed.

Lemma column_sum_ok df col a :
  df !! col = Some (ColInt a) → column_sum df col = Ok (Zsum a).
Proof. intros Hv. unfold column_sum, getitem. by rewrite Hv. Qed.

Lemma column_nunique_ok df col c :
  df !! col = Some c → column_nunique df col = Ok (nunique (col_values c)).
Proof. intros Hc. unfold column_nunique, getitem. by rewrite Hc. Qed.

(** With columns of the same length, the rows keep every key and every
    amount. *)
Lemma rows_keys c (a : list Z) :
  col_len c = length a → (zip (col_values c) a).*1 = col_values c.
Proof. unfold col_len. intros Hl. apply fst_zip. lia. Qed.

Lemma rows_amounts c (a : list Z) :
  col_len c = length a → (zip (col_values c) a).*2 = a.
Proof. unfold col_len. intros Hl. apply snd_zip. lia. Qed.

(** *** Reordering rows *)

Lemma reindex_seq_app {A} (l1 l2 : list A) :
  reindex (seq (length l1) (length l2)) (l1 ++ l2) = l2.
Proof.
  unfold reindex. revert l1. induction l2 as [|x l2 IH]; intros l1; [done|].
  simpl. rewrite list_lookup_middle by done. simpl. f_equal.
  specialize (IH (l1 ++ [x])).
  rewrite length_app, <- app_assoc in IH. simpl in IH.
  by rewrite Nat.add_1_r in IH.
Qed.

Lemma reindex_seq {A} (l : list A) : reindex (seq 0 (length l)) l = l.
Proof. apply (reindex_seq_app [] l). Qed.

Lemma reindex_Permutation {A} idx (l : list A) :
  idx ≡ₚ seq 0 (length l) → reindex idx l ≡ₚ l.
Proof.
  intros Hp. rewrite <- (reindex_seq l) at 2. unfold reindex. by rewrite Hp.
Qed.

Lemma reindex_fmap {A B} (f : A → B) idx (l : list A) :
  reindex idx (f <$> l) = f <$> reindex idx l.
Proof.
  unfold reindex. induction idx as [|i idx IH]; [done|].
  csimpl. rewrite list_lookup_fmap, IH. by destruct (l !! i).
Qed.

Lemma reindex_zip {A B} idx (l : list A) (k : list B) :
  length l = length k →
  reindex idx (zip l k) = zip (reindex idx l) (reindex idx k).
Proof.
  intros Hl. unfold reindex. induction idx as [|i idx IH]; [done|].
  csimpl. rewrite IH. clear IH.
  destruct (l !! i) as [x|] eqn:Hx, (k !! i) as [y|] eqn:Hy; simpl.
  - assert (zip l k !! i = Some (x, y)) as ->; [|done].
    apply lookup_zip_with_Some. eauto.
  - apply lookup_lt_Some in Hx. apply lookup_ge_None in Hy. lia.
  - apply lookup_lt_Some in Hy. apply lookup_ge_None in Hx. lia.
  - assert (zip l k !! i = None) as ->; [|done].
    apply lookup_zip_with_None. auto.
Qed.

Lemma col_values_iloc idx c :
  col_values (col_iloc idx c) = reindex idx (col_values c).
Proof. destruct c; simpl; by rewrite reindex_fmap. Qed.

(** Grouping and summing gives the same series on a dataframe and on
    any reordering of its rows. *)
Lemma groupby_sum_iloc n df idx by_col val_col :
  has_rows n df → idx ≡ₚ seq 0 n →
  groupby_sum (iloc idx df) by_col val_col = groupby_sum df by_col val_col.
Proof.
  intros Hn Hp. unfold groupby_sum, getitem, iloc. rewrite !lookup_fmap.
  destruct (df !! by_col) as [kc|] eqn:Hk; [|done]. simpl.
  destruct (df !! val_col) as [[l|a|l]|] eqn:Hv; try done. simpl.
  f_equal. rewrite col_values_iloc.
  assert (length (col_values kc) = length a) as Hl.
  { pose proof (has_rows_lookup _ _ _ _ Hn Hk) as H1.
    pose proof (has_rows_lookup _ _ _ _ Hn Hv) as H2.
    rewrite col_len_int in H2. unfold col_len in H1. lia. }
  rewrite <- reindex_zip by done.
  apply group_sum_Permutation, reindex_Permutation.
  rewrite length_zip, <- Hl, Nat.min_id.
  pose proof (has_rows_lookup _ _ _ _ Hn Hk) as H1. unfold col_len in H1.
  by rewrite H1.
Qed.

(** *** The mean *)

Lemma mean_spec (s : Series) :
  s ≠ [] →
  ∃ q, mean s = Some q ∧
       (q * inject_Z (Z.of_nat (length s)) == inject_Z (series_sum s))%Q.
Proof.
  intros Hne. destruct s as [|e s]; [done|]. eexists. split; [done|].
  rewrite Qred_correct. unfold Qeq, inject_Z. simpl Qnum. simpl Qden.
  rewrite Pos.mul_1_r.
  assert (Z.pos (Pos.of_nat (S (length s))) = Z.of_nat (S (length s))) as ->
    by lia.
  lia.
Qed.

End FrameFacts.

(** * The category renderers *)

Section CategoryRenderers.
Context `{DateLib}.
Implicit Types (df : DataFrame) (ax : Axes) (s agg : Series) (top_n : Z).

Lemma groupby_sum_inv df by_col val_col s :
  groupby_sum df by_col val_col = Ok s →
  ∃ c a, df !! by_col = Some c ∧ df !! val_col = Some (ColInt a) ∧
         s = group_sum (zip (col_values c) a).
Proof.
  unfold groupby_sum, getitem.
  destruct (df !! by_col) as [c|]; [|done]. simpl.
  destruct (df !! val_col) as [[l|a|l]|]; try done. simpl.
  intros [= <-]. eauto.
Qed.

Lemma category_totals_inv df cat_col ventas_col agg :
  category_totals df cat_col ventas_col = Ok agg →
  ∃ s, groupby_sum df cat_col ventas_col = Ok s ∧ agg = sort_values_desc s.
Proof.
  unfold category_totals.
  destruct (groupby_sum df cat_col ventas_col) as [s|e]; [|done].
  simpl. intros [= <-]. eauto.
Qed.

Lemma pretty_nat_Z (n : nat) : pretty n = pretty (Z.of_nat n).
Proof. by destruct n. Qed.

Lemma plot_participacion_pie_totals ax df cat_col ventas_col top_n agg :
  category_totals df cat_col ventas_col = Ok agg →
  plot_participacion_pie ax df cat_col ventas_col top_n =
    Ok (pie_panel (pie_series agg top_n) ax).
Proof.
  intros (s & Hs & ->)%category_totals_inv.
  unfold plot_participacion_pie. by rewrite Hs.
Qed.

Lemma plot_ventas_por_categoria_totals ax df cat_col ventas_col top_n agg :
  category_totals df cat_col ventas_col = Ok agg →
  plot_ventas_por_categoria ax df cat_col ventas_col top_n =
    Ok (bar_panel (head top_n agg) (Z.of_nat (length (head top_n agg))) ax).
Proof.
  intros (s & Hs & ->)%category_totals_inv.
  unfold plot_ventas_por_categoria. rewrite Hs. simpl.
  unfold bar_panel. by rewrite pretty_nat_Z.
Qed.

(** The per-category sums add up to the amount column, and there is
    one of them per distinct category. *)
Lemma category_totals_sum n df cat_col ventas_col agg :
  has_rows n df → category_totals df cat_col ventas_col = Ok agg →
  column_sum df ventas_col = Ok (series_sum agg).
Proof.
  intros Hn (s & (c & a & Hc & Ha & ->)%groupby_sum_inv & ->)%category_totals_inv.
  rewrite (column_sum_ok _ _ _ Ha). f_equal.
  rewrite series_sum_sort_values_desc, series_sum_group_sum, rows_amounts; [done|].
  rewrite (has_rows_lookup _ _ _ _ Hn Hc).
  rewrite <- (has_rows_lookup _ _ _ _ Hn Ha). apply col_len_int.
Qed.

Lemma category_totals_length n df cat_col ventas_col agg :
  has_rows n df → category_totals df cat_col ventas_col = Ok agg →
  column_nunique df cat_col = Ok (length agg).
Proof.
  intros Hn (s & (c & a & Hc & Ha & ->)%groupby_sum_inv & ->)%category_totals_inv.
  rewrite (column_nunique_ok _ _ _ Hc). f_equal.
  rewrite length_sort_values_desc, length_group_sum, rows_keys; [done|].
  rewrite (has_rows_lookup _ _ _ _ Hn Hc).
  rewrite <- (has_rows_lookup _ _ _ _ Hn Ha). apply col_len_int.
Qed.

(** What [pie_series] produces, case by case. *)
Lemma pie_series_no_rest agg top_n :
  (series_sum (iloc_from top_n agg) ≤ 0)%Z → pie_series agg top_n = head top_n agg.
Proof. intros Hle. unfold pie_series. case_match; [lia|done]. Qed.

Lemma pie_series_rest agg top_n :
  (0 < series_sum (iloc_from top_n agg))%Z →
  pie_series agg top_n =
    setitem (VStr "Otros") (series_sum (iloc_from top_n agg)) (head top_n agg).
Proof. intros Hlt. unfold pie_series. case_match; [done|lia]. Qed.

Lemma pie_series_all agg top_n :
  (Z.of_nat (length agg) ≤ top_n)%Z → pie_series agg top_n = agg.
Proof.
  intros Hn. unfold pie_series. rewrite iloc_from_all, head_all by done.
  done.
Qed.

(** *** When the rest cannot be negative and no label collides *)

Lemma Zsum_nonneg (l : list Z) : Forall (λ x, 0 ≤ x)%Z l → (0 ≤ Zsum l)%Z.
Proof. induction 1; simpl; lia. Qed.

Lemma series_sum_nonneg s : Forall (λ e, 0 ≤ e.2)%Z s → (0 ≤ series_sum s)%Z.
Proof. intros Hs. apply Zsum_nonneg. unfold values. by apply Forall_fmap. Qed.

Lemma group_sum_nonneg (rows : list (value * Z)) :
  Forall (λ r, 0 ≤ r.2)%Z rows → Forall (λ e, 0 ≤ e.2)%Z (group_sum rows).
Proof.
  intros Hrows. unfold group_sum. apply Forall_fmap, Forall_forall.
  intros k _. simpl. apply Zsum_nonneg, Forall_fmap.
  unfold group_rows. apply Forall_forall.
  intros r [_ Hr]%list_elem_of_filter. by apply (proj1 (Forall_forall _ _) Hrows).
Qed.

(** With no negative amount, the rest is never negative. *)
Lemma rest_nonnegative n df cat_col ventas_col top_n agg a :
  has_rows n df →
  df !! ventas_col = Some (ColInt a) →
  Forall (λ x, 0 ≤ x)%Z a →
  category_totals df cat_col ventas_col = Ok agg →
  (0 ≤ series_sum (iloc_from top_n agg))%Z.
Proof.
  intros Hn Ha Hpos
    (s & (c & a' & Hc & Ha' & ->)%groupby_sum_inv & ->)%category_totals_inv.
  rewrite Ha in Ha'. injection Ha' as <-.
  apply series_sum_nonneg. unfold iloc_from. apply Forall_drop.
  rewrite sort_values_desc_Permutation. apply group_sum_nonneg.
  apply Forall_forall. intros [k x] Hin%elem_of_zip_r. simpl.
  by apply (proj1 (Forall_forall _ _) Hpos).
Qed.

(** With no category called "Otros", no kept label collides with the
    bucket. *)
Lemma otros_not_kept n df cat_col ventas_col top_n agg c :
  has_rows n df →
  df !! cat_col = Some c →
  VStr "Otros" ∉ col_values c →
  category_totals df cat_col ventas_col = Ok agg →
  VStr "Otros" ∉ index (head top_n agg).
Proof.
  intros Hn Hc Hnot
    (s & (c' & a & Hc' & Ha & ->)%groupby_sum_inv & ->)%category_totals_inv.
  rewrite Hc in Hc'. injection Hc' as <-.
  intros Hin. apply Hnot.
  unfold index, head in Hin. apply list_elem_of_fmap in Hin as (e & -> & He).
  apply elem_of_take in He as (i & He & _). apply list_elem_of_lookup_2 in He.
  rewrite sort_values_desc_Permutation in He.
  assert (e.1 ∈ index (group_sum (zip (col_values c) a))) as Hk
    by (unfold index; by apply list_elem_of_fmap_2).
  apply (proj1 (elem_of_index_group_sum _ _)) in Hk.
  apply list_elem_of_fmap in Hk as ([k x] & -> & Hzip). simpl.
  by apply elem_of_zip_l in Hzip.
Qed.

End CategoryRenderers.

(** * The claims about the category renderers *)

(** Discharge a decidable side condition on concrete data by evaluation. *)
Ltac by_evaluation := apply (bool_decide_unpack _); vm_compute; exact I.

Section CategoryClaims.
Context `{DateLib}.
Implicit Types (df : DataFrame) (ax : Axes) (s agg : Series) (top_n : Z).



(** C5 (amended). For every table whose per-category sums exist and
    every [top_n >= 0], the bar renderer draws [k] bars under the title
    "Top k categorías por ventas", where [k] is the minimum of [top_n]
    and the number of distinct category values. *)
Theorem bar_title_counts_bars n df cat_col ventas_col top_n agg :
  has_rows n df →
  category_totals df cat_col ventas_col = Ok agg →
  (0 ≤ top_n)%Z →
  bar_title_counts_min df cat_col ventas_col top_n.
Proof.
  intros Hn Hagg Htop ax. exists (head top_n agg), (length agg).
  split; [by eapply category_totals_length|].
  rewrite <- length_head_nonneg by done.
  split; [by apply plot_ventas_por_categoria_totals|done].
Qed.

(** C9. With [top_n = 0] on a table whose total amount is strictly
    positive, the pie renderer keeps no category and draws exactly one
    slice, "Otros", holding the whole total; the bar renderer draws no
    bar under the title "Top 0 categorías por ventas". *)
Theorem top_n_zero_panels n df cat_col ventas_col total agg ax :
  has_rows n df →
  category_totals df cat_col ventas_col = Ok agg →
  column_sum df ventas_col = Ok total →
  (0 < total)%Z →
  head 0 agg = [] ∧
  plot_participacion_pie ax df cat_col ventas_col 0 =
    Ok (set_title "Participación por categoría"
          (add_artist (Wedges [total] ["Otros"] "%1.1f%%" 140) ax)) ∧
  plot_ventas_por_categoria ax df cat_col ventas_col 0 =
    Ok (setp_xticklabels 45 "right"
          (set_ylabel "Ventas"
            (set_title "Top 0 categorías por ventas"
              (add_artist (Bars [] []) ax)))).
Proof.
  intros Hn Hagg Htotal Hpos.
  rewrite (category_totals_sum _ _ _ _ _ Hn Hagg) in Htotal.
  injection Htotal as <-.
  split; [apply head_0|]. split.
  - rewrite (plot_participacion_pie_totals _ _ _ _ _ _ Hagg).
    rewrite pie_series_rest; rewrite iloc_from_0; [|done].
    by rewrite head_0.
  - rewrite (plot_ventas_por_categoria_totals _ _ _ _ _ _ Hagg).
    by rewrite head_0.
Qed.

End CategoryClaims.

(** ** Concrete runs of the category renderers *)

Lemma ex_df_dates_rows : has_rows 3 ex_df_dates.
Proof. by_evaluation. Qed.

Lemma ex_df_dates_totals :
  category_totals ex_df_dates "categoria" "ventas" =
    Ok [(VStr "A", 130%Z); (VStr "B", 50%Z)].
Proof. by vm_compute. Qed.




(** C5, as stated, fails for a negative [top_n]: on three categories
    [head(-1)] keeps two of them, so two bars are drawn under "Top 2
    ...", while the minimum of [top_n] and the category count is -1. *)
Lemma bar_title_negative_top_n :
  plot_ventas_por_categoria (H:=iso_dates) blank_axes ex_three "categoria" "ventas" (-1) =
    Ok (bar_panel (H:=iso_dates) [(VStr "A", 30%Z); (VStr "B", 20%Z)] 2 blank_axes) ∧
  ¬ bar_title_counts_min (H:=iso_dates) ex_three "categoria" "ventas" (-1).
Proof.
  split; [by vm_compute|].
  intros Hc. destruct (Hc blank_axes) as (bars & m & _ & _ & Hlen). lia.
Qed.

Lemma bar_title_counts_bars_witness :
  bar_title_counts_min (H:=iso_dates) ex_three "categoria" "ventas" 2.
Proof.
  apply (bar_title_counts_bars (H:=iso_dates) 3 ex_three "categoria" "ventas" 2
           [(VStr "A", 30%Z); (VStr "B", 20%Z); (VStr "C", 10%Z)]).
  - by_evaluation.
  - by vm_compute.
  - lia.
Defined.

Lemma top_n_zero_panels_witness :
  plot_participacion_pie (H:=iso_dates) blank_axes ex_df_dates "categoria" "ventas" 0 =
    Ok (set_title "Participación por categoría"
          (add_artist (Wedges [180%Z] ["Otros"] "%1.1f%%" 140) blank_axes)) ∧
  plot_ventas_por_categoria (H:=iso_dates) blank_axes ex_df_dates "categoria" "ventas" 0 =
    Ok (setp_xticklabels 45 "right"
          (set_ylabel "Ventas"
            (set_title "Top 0 categorías por ventas"
              (add_artist (Bars [] []) blank_axes)))).
Proof.
  apply (top_n_zero_panels (H:=iso_dates) 3 ex_df_dates "categoria" "ventas" 180
           [(VStr "A", 130%Z); (VStr "B", 50%Z)] blank_axes).
  - by_evaluation.
  - by vm_compute.
  - by vm_compute.
  - lia.
Defined.

(** * The time series and the summary statistics *)

Section TimeClaims.
Implicit Types (df : DataFrame) (ax : Axes) (idx : list nat).

Lemma sort_index_Permutation (s : Series) : sort_index s ≡ₚ s.
Proof. apply merge_sort_Permutation. Qed.

Lemma sort_index_sorted (s : Series) : Sorted entry_le (sort_index s).
Proof. apply Sorted_merge_sort, _. Qed.

(** The line plotted by the time renderer runs over ascending dates. *)
Lemma plot_ventas_tiempo_ascending ax df fecha_col ventas_col s :
  groupby_sum df fecha_col ventas_col = Ok s →
  plot_ventas_tiempo ax df fecha_col ventas_col =
    Ok (_format_eje_fecha
          (set_ylabel "Ventas"
            (set_title "Ventas en el tiempo"
              (add_artist (Line2D (index (sort_index s)) (values (sort_index s)) "o") ax)))
          fecha_col) ∧
  Sorted value_le (index (sort_index s)).
Proof.
  intros Hs. unfold plot_ventas_tiempo. rewrite Hs. split; [done|].
  unfold index. apply (Sorted_fmap fst entry_le value_le); [done|].
  apply sort_index_sorted.
Qed.



End TimeClaims.



(** * The style configurator *)

(** C8. Calling [set_default_style] with no arguments does not raise and
    returns no value; afterwards the colour cycle holds the six
    corporate colours, every default style parameter has its default
    value, and nothing else in the store has changed. *)
Theorem set_default_style_defaults (st : state) :
  ∃ rc,
    set_default_style None None st =
      (Ok (), mkState (heap st) rc (open_figures st)) ∧
    rc !! "axes.prop_cycle" =
      Some (RcCycler [ "#0B5FFF"; "#00B37E"; "#FFB020"; "#E11D48"; "#7C3AED"; "#06B6D4" ]) ∧
    length CORPORATE_COLORS = 6%nat ∧
    rc !! "figure.figsize" = Some (RcSize 12 7) ∧
    rc !! "axes.titlesize" = Some (RcInt 16) ∧
    rc !! "axes.labelsize" = Some (RcInt 12) ∧
    rc !! "xtick.labelsize" = Some (RcInt 10) ∧
    rc !! "ytick.labelsize" = Some (RcInt 10) ∧
    rc !! "legend.fontsize" = Some (RcInt 10) ∧
    rc !! "lines.linewidth" = Some (RcInt 2) ∧
    rc !! "grid.alpha" = Some (RcNum (25 # 100)) ∧
    rc !! "axes.grid" = Some (RcBool true) ∧
    (∀ k v, DEFAULT_STYLE !! k = Some v → rc !! k = Some v).
Proof.
  eexists. split; [reflexivity|].
  assert (∀ k v, DEFAULT_STYLE !! k = Some v →
    (<["axes.prop_cycle" := RcCycler CORPORATE_COLORS]>
       (DEFAULT_STYLE ∪ rcParams st)) !! k = Some v) as Hdefault.
  { intros k v Hk.
    destruct (decide (k = "axes.prop_cycle")) as [->|Hne]; [by vm_compute in Hk|].
    rewrite lookup_insert_ne by done. by apply lookup_union_Some_l. }
  assert (∀ k v, DEFAULT_STYLE !! k = Some v →
    (<["axes.grid" := RcBool true]>
      (<["axes.edgecolor" := RcStr "#2B2B2B"]>
        (<["grid.color" := RcStr "#DDE6F6"]>
          (<["axes.facecolor" := RcStr "#FBFBFD"]>
            (<["figure.facecolor" := RcStr "white"]>
              (<["axes.prop_cycle" := RcCycler CORPORATE_COLORS]>
                (DEFAULT_STYLE ∪ rcParams st))))))) !! k = Some v) as Hall.
  { intros k v Hk.
    destruct (decide (k = "axes.grid")) as [->|?]; [by vm_compute in Hk|].
    destruct (decide (k = "axes.edgecolor")) as [->|?]; [by vm_compute in Hk|].
    destruct (decide (k = "grid.color")) as [->|?]; [by vm_compute in Hk|].
    destruct (decide (k = "axes.facecolor")) as [->|?]; [by vm_compute in Hk|].
    destruct (decide (k = "figure.facecolor")) as [->|?]; [by vm_compute in Hk|].
    rewrite !lookup_insert_ne by done. by apply Hdefault. }
  split.
  { rewrite !lookup_insert_ne by done. by rewrite lookup_insert_eq. }
  split; [done|].
  do 8 (split; [apply Hall; by vm_compute|]).
  split; [by rewrite lookup_insert_eq|]. exact Hall.
Qed.

(** * The orchestrator *)

Section Dashboard.
Context `{DateLib}.
Implicit Types (df : loc) (d dc : DataFrame) (st : state).

Lemma fresh_not_allocated st d df :
  heap st !! df = Some d → fresh (dom (heap st)) ≠ df.
Proof.
  intros Hd Heq. apply (is_fresh (dom (heap st))).
  rewrite Heq. apply elem_of_dom. eauto.
Qed.

Lemma fresh_lookup st : heap st !! fresh (dom (heap st)) = None.
Proof. apply not_elem_of_dom, is_fresh. Qed.

(** Once the surfaces exist, the rest of the run is [render_panels] on
    the working copy and leaves the store alone. *)
Lemma draw_on_copy l dc st fecha_col cat_col ventas_col :
  heap st !! l = Some dc →
  (dc ← deref l;
   ax_time ← lift (plot_ventas_tiempo blank_axes dc fecha_col ventas_col);
   ax_bar ← lift (plot_ventas_por_categoria blank_axes dc cat_col ventas_col 8);
   ax_pie ← lift (plot_participacion_pie blank_axes dc cat_col ventas_col 6);
   texto ← lift (texto_kpi dc fecha_col cat_col ventas_col);
   let ax_empty := axis_off blank_axes in
   let ax_empty := add_artist (Text (2 # 100) (95 # 100) texto "top" 12 "monospace") ax_empty in
   mret (mkFigure (14, 9)%Z ax_time ax_bar ax_pie ax_empty
                  (Some ("Dashboard de Ventas", 20%Z))
                  (Some (0, 3 # 100, 1, 95 # 100)%Q))) st =
  (render_panels dc fecha_col cat_col ventas_col, st).
Proof.
  intros Hl. unfold render_panels, mbind, M_bind, deref, lift. rewrite Hl.
  destruct (plot_ventas_tiempo _ _ _ _); [|done].
  destruct (plot_ventas_por_categoria _ _ _ _ _); [|done].
  destruct (plot_participacion_pie _ _ _ _ _); [|done].
  destruct (texto_kpi _ _ _ _); done.
Qed.

(** *** Stepping through the monad *)

Lemma bind_ok {A B} (m : M A) (f : A → M B) st a st' :
  m st = (Ok a, st') → (x ← m; f x) st = f a st'.
Proof. intros Hm. unfold mbind, M_bind. by rewrite Hm. Qed.

Lemma bind_err {A B} (m : M A) (f : A → M B) st e st' :
  m st = (Err e, st') → (x ← m; f x) st = (Err e, st').
Proof. intros Hm. unfold mbind, M_bind. by rewrite Hm. Qed.

Lemma deref_ok l d st : heap st !! l = Some d → deref l st = (Ok d, st).
Proof. intros Hl. unfold deref. by rewrite Hl. Qed.

Lemma frame_copy_ok df d st :
  heap st !! df = Some d →
  frame_copy df st =
    (Ok (fresh (dom (heap st))),
     mkState (<[fresh (dom (heap st)) := d]> (heap st)) (rcParams st) (open_figures st)).
Proof.
  intros Hd. unfold frame_copy. by rewrite (bind_ok _ _ _ _ _ (deref_ok _ _ _ Hd)).
Qed.

Lemma columns_present d fecha_col cat_col ventas_col :
  is_Some (d !! fecha_col) → is_Some (d !! cat_col) → is_Some (d !! ventas_col) →
  negb (has_column fecha_col d) || negb (has_column cat_col d)
    || negb (has_column ventas_col d) = false.
Proof.
  intros Hf Hc Hv.
  by rewrite (proj2 (has_column_true _ _) Hf), (proj2 (has_column_true _ _) Hc),
    (proj2 (has_column_true _ _) Hv).
Qed.

Lemma columns_absent d fecha_col cat_col ventas_col :
  d !! fecha_col = None ∨ d !! cat_col = None ∨ d !! ventas_col = None →
  negb (has_column fecha_col d) || negb (has_column cat_col d)
    || negb (has_column ventas_col d) = true.
Proof.
  intros [Hf|[Hc|Hv]].
  - by rewrite (proj2 (has_column_false _ _) Hf).
  - rewrite (proj2 (has_column_false _ _) Hc). simpl. by rewrite orb_true_r.
  - rewrite (proj2 (has_column_false _ _) Hv). simpl. by rewrite orb_true_r.
Qed.

(** A run on a table whose date column is not date-typed and parses. *)
Lemma generar_dashboard_converts st df d fecha_col cat_col ventas_col c c' :
  heap st !! df = Some d →
  d !! fecha_col = Some c →
  is_Some (d !! cat_col) →
  is_Some (d !! ventas_col) →
  is_datetime c = false →
  to_datetime c = Ok c' →
  generar_dashboard df fecha_col cat_col ventas_col st =
    (render_panels (<[fecha_col := c']> d) fecha_col cat_col ventas_col,
     mkState (<[fresh (dom (heap st)) := <[fecha_col := c']> d]> (heap st))
             (rcParams st) (S (open_figures st))).
Proof.
  intros Hd Hf Hc Hv Hdt Hparse.
  unfold generar_dashboard.
  rewrite (bind_ok _ _ _ _ _ (deref_ok _ _ _ Hd)).
  rewrite columns_present by eauto.
  rewrite (bind_ok _ _ _ _ _ (frame_copy_ok _ _ _ Hd)).
  set (l := fresh (dom (heap st))).
  set (st1 := mkState (<[l := d]> (heap st)) (rcParams st) (open_figures st)).
  assert (heap st1 !! l = Some d) as Hl1 by apply lookup_insert_eq.
  assert ((dc ← deref l; lift (getitem dc fecha_col)) st1 = (Ok c, st1)) as Hget.
  { rewrite (bind_ok _ _ _ _ _ (deref_ok _ _ _ Hl1)).
    unfold lift, getitem. by rewrite Hf. }
  rewrite (bind_ok _ _ _ _ _ Hget), Hdt. cbn [negb].
  set (st2 := mkState (<[l := <[fecha_col := c']> d]> (heap st))
                      (rcParams st) (open_figures st)).
  assert ((c' ← lift (to_datetime c); setcol l fecha_col c') st1 = (Ok (), st2))
    as Hset.
  { assert (lift (to_datetime c) st1 = (Ok c', st1)) as Hlift
      by (unfold lift; by rewrite Hparse).
    rewrite (bind_ok _ _ _ _ _ Hlift). unfold setcol. rewrite Hl1.
    unfold st1, st2. simpl. by rewrite insert_insert_eq. }
  rewrite (bind_ok _ _ _ _ _ Hset).
  set (st3 := mkState (heap st2) (rcParams st2) (S (open_figures st2))).
  assert (plt_subplots_2x2 st2 =
          (Ok (blank_axes, blank_axes, blank_axes, blank_axes), st3)) as Hfig
    by done.
  rewrite (bind_ok _ _ _ _ _ Hfig).
  apply (draw_on_copy l). apply lookup_insert_eq.
Qed.

(** A run on a table whose date column is already date-typed. *)
Lemma generar_dashboard_keeps st df d fecha_col cat_col ventas_col c :
  heap st !! df = Some d →
  d !! fecha_col = Some c →
  is_Some (d !! cat_col) →
  is_Some (d !! ventas_col) →
  is_datetime c = true →
  generar_dashboard df fecha_col cat_col ventas_col st =
    (render_panels d fecha_col cat_col ventas_col,
     mkState (<[fresh (dom (heap st)) := d]> (heap st))
             (rcParams st) (S (open_figures st))).
Proof.
  intros Hd Hf Hc Hv Hdt.
  unfold generar_dashboard.
  rewrite (bind_ok _ _ _ _ _ (deref_ok _ _ _ Hd)).
  rewrite columns_present by eauto.
  rewrite (bind_ok _ _ _ _ _ (frame_copy_ok _ _ _ Hd)).
  set (l := fresh (dom (heap st))).
  set (st1 := mkState (<[l := d]> (heap st)) (rcParams st) (open_figures st)).
  assert (heap st1 !! l = Some d) as Hl1 by apply lookup_insert_eq.
  assert ((dc ← deref l; lift (getitem dc fecha_col)) st1 = (Ok c, st1)) as Hget.
  { rewrite (bind_ok _ _ _ _ _ (deref_ok _ _ _ Hl1)).
    unfold lift, getitem. by rewrite Hf. }
  rewrite (bind_ok _ _ _ _ _ Hget), Hdt. cbn [negb].
  assert ((mret () : M unit) st1 = (Ok (), st1)) as Hret by done.
  rewrite (bind_ok _ _ _ _ _ Hret).
  set (st3 := mkState (heap st1) (rcParams st1) (S (open_figures st1))).
  assert (plt_subplots_2x2 st1 =
          (Ok (blank_axes, blank_axes, blank_axes, blank_axes), st3)) as Hfig
    by done.
  rewrite (bind_ok _ _ _ _ _ Hfig).
  apply (draw_on_copy l). apply lookup_insert_eq.
Qed.

(** A run on a table whose date column does not parse: the error of the
    parser comes out, after the copy and before any figure. *)
Lemma generar_dashboard_parse_failure st df d fecha_col cat_col ventas_col c e :
  heap st !! df = Some d →
  d !! fecha_col = Some c →
  is_Some (d !! cat_col) →
  is_Some (d !! ventas_col) →
  is_datetime c = false →
  to_datetime c = Err e →
  generar_dashboard df fecha_col cat_col ventas_col st =
    (Err e,
     mkState (<[fresh (dom (heap st)) := d]> (heap st))
             (rcParams st) (open_figures st)).
Proof.
  intros Hd Hf Hc Hv Hdt Hparse.
  unfold generar_dashboard.
  rewrite (bind_ok _ _ _ _ _ (deref_ok _ _ _ Hd)).
  rewrite columns_present by eauto.
  rewrite (bind_ok _ _ _ _ _ (frame_copy_ok _ _ _ Hd)).
  set (l := fresh (dom (heap st))).
  set (st1 := mkState (<[l := d]> (heap st)) (rcParams st) (open_figures st)).
  assert (heap st1 !! l = Some d) as Hl1 by apply lookup_insert_eq.
  assert ((dc ← deref l; lift (getitem dc fecha_col)) st1 = (Ok c, st1)) as Hget.
  { rewrite (bind_ok _ _ _ _ _ (deref_ok _ _ _ Hl1)).
    unfold lift, getitem. by rewrite Hf. }
  rewrite (bind_ok _ _ _ _ _ Hget), Hdt. cbn [negb].
  apply bind_err. apply bind_err. unfold lift. by rewrite Hparse.
Qed.

(** The drawing part succeeds on a table that has the three columns
    with integer amounts. *)
Lemma render_panels_ok dc fecha_col cat_col ventas_col a :
  is_Some (dc !! fecha_col) →
  is_Some (dc !! cat_col) →
  dc !! ventas_col = Some (ColInt a) →
  ∃ fig, render_panels dc fecha_col cat_col ventas_col = Ok fig.
Proof.
  intros [fc Hf] [cc Hc] Hv.
  unfold render_panels, plot_ventas_tiempo, plot_ventas_por_categoria,
    plot_participacion_pie, texto_kpi, total_ventas, promedio_diario.
  rewrite (groupby_sum_ok _ _ _ _ _ Hf Hv), (groupby_sum_ok _ _ _ _ _ Hc Hv).
  rewrite (column_sum_ok _ _ _ Hv).
  rewrite (column_nunique_ok _ _ _ Hf), (column_nunique_ok _ _ _ Hc).
  simpl. eauto.
Qed.

End Dashboard.

(** * The claims about the orchestrator *)

Section DashboardClaims.
Context `{DateLib}.
Implicit Types (df : loc) (d dc : DataFrame) (st : state).

Lemma to_datetime_is_datetime c c' :
  to_datetime c = Ok c' → is_datetime c' = true.
Proof.
  destruct c as [l|l|l]; simpl; try by intros [= <-].
  destruct (parse_dates l); simpl; [|done]. by intros [= <-].
Qed.

(** C2. For every table that lacks at least one of the three
    configured columns, [generar_dashboard] fails at once with a
    [ValueError] whose message lists the three expected column names;
    the store is left as it was: no copy is made and no figure is
    registered. *)
Theorem dashboard_rejects_missing_column st df d fecha_col cat_col ventas_col :
  heap st !! df = Some d →
  d !! fecha_col = None ∨ d !! cat_col = None ∨ d !! ventas_col = None →
  generar_dashboard df fecha_col cat_col ventas_col st =
    (Err (ValueError ("El DataFrame debe contener las columnas: " +:+
                      fecha_col +:+ ", " +:+ cat_col +:+ ", " +:+ ventas_col)),
     st).
Proof.
  intros Hd Hmissing. unfold generar_dashboard.
  rewrite (bind_ok _ _ _ _ _ (deref_ok _ _ _ Hd)).
  by rewrite columns_absent.
Qed.


(** C6. The summary statistics of the orchestrator: the total is the
    sum of all amounts, the daily average is the mean of the per-date
    sums, and they are shown with the numbers of distinct dates and of
    distinct categories. On the example table the run returns a figure
    whose text block reads total 180, daily average 90, 2 days and 2
    categories; the per-date sums are 150 and 30 and the per-category
    sums are A = 130 and B = 50. *)
Theorem kpi_statistics :
  (∀ d fecha_col cat_col ventas_col fc cc a,
     d !! fecha_col = Some fc → d !! cat_col = Some cc →
     d !! ventas_col = Some (ColInt a) →
     let daily := group_sum (zip (col_values fc) a) in
     total_ventas d ventas_col = Ok (Zsum a) ∧
     groupby_sum d fecha_col ventas_col = Ok daily ∧
     promedio_diario d fecha_col ventas_col = Ok (mean daily) ∧
     column_nunique d fecha_col = Ok (nunique (col_values fc)) ∧
     column_nunique d cat_col = Ok (nunique (col_values cc)) ∧
     texto_kpi d fecha_col cat_col ventas_col =
       Ok ("Total ventas: " +:+ format_comma_0f (inject_Z (Zsum a)) +:+ nl +:+
           "Promedio diario: " +:+ format_float (mean daily) +:+ nl +:+
           "Días: " +:+ pretty (nunique (col_values fc)) +:+ nl +:+
           "Categorías: " +:+ pretty (nunique (col_values cc)))) ∧
  (∃ fig st',
     generar_dashboard (H:=iso_dates) 0%nat "fecha" "categoria" "ventas"
       (state_with ex_df) = (Ok fig, st') ∧
     heap st' !! 0%nat = Some ex_df ∧
     heap st' !! 1%nat = Some ex_df_dates ∧
     artists (axs11 fig) =
       [Text (2 # 100) (95 # 100)
          ("Total ventas: 180" +:+ nl +:+ "Promedio diario: 90" +:+ nl +:+
           "Días: 2" +:+ nl +:+ "Categorías: 2")
          "top" 12 "monospace"] ∧
     total_ventas ex_df_dates "ventas" = Ok 180%Z ∧
     promedio_diario ex_df_dates "fecha" "ventas" = Ok (Some (90 # 1)) ∧
     column_nunique ex_df_dates "fecha" = Ok 2%nat ∧
     column_nunique ex_df_dates "categoria" = Ok 2%nat ∧
     groupby_sum ex_df_dates "fecha" "ventas" =
       Ok [(VDate 20240101, 150%Z); (VDate 20240102, 30%Z)] ∧
     groupby_sum ex_df_dates "categoria" "ventas" =
       Ok [(VStr "A", 130%Z); (VStr "B", 50%Z)]).
Proof.
  split.
  - intros d fecha_col cat_col ventas_col fc cc a Hf Hc Hv daily.
    unfold texto_kpi, total_ventas, promedio_diario.
    rewrite (groupby_sum_ok _ _ _ _ _ Hf Hv), (column_sum_ok _ _ _ Hv).
    rewrite (column_nunique_ok _ _ _ Hf), (column_nunique_ok _ _ _ Hc).
    by repeat split.
  - eexists _, _. split; [by vm_compute|].
    repeat split; by vm_compute.
Qed.

End DashboardClaims.

Lemma dashboard_rejects_missing_column_witness :
  generar_dashboard (H:=iso_dates) 0%nat "fecha" "categoria" "ventas"
    (state_with ex_missing) =
  (Err (ValueError "El DataFrame debe contener las columnas: fecha, categoria, ventas"),
   state_with ex_missing).
Proof.
  apply (dashboard_rejects_missing_column (H:=iso_dates) (state_with ex_missing)
           0%nat ex_missing "fecha" "categoria" "ventas").
  - by vm_compute.
  - right. right. by vm_compute.
Defined.


Lemma kpi_statistics_witness :
  texto_kpi ex_df_dates "fecha" "categoria" "ventas" =
    Ok ("Total ventas: 180" +:+ nl +:+ "Promedio diario: 90" +:+ nl +:+
        "Días: 2" +:+ nl +:+ "Categorías: 2").
Proof.
  destruct (proj1 kpi_statistics ex_df_dates "fecha" "categoria" "ventas"
              (ColDate [20240101; 20240101; 20240102]%Z) (ColStr ["A"; "B"; "A"])
              [100; 50; 30]%Z) as (_ & _ & _ & _ & _ & Htext).
  - by vm_compute.
  - by vm_compute.
  - by vm_compute.
  - rewrite Htext. by vm_compute.
Defined.

(** * Further properties of the style configurator *)

Section StyleFacts.
Implicit Types (colors : option (list string))
  (style_opts : option (gmap string rcvalue)) (st : state).

(** The parameters after a call, key by key. *)
Lemma set_default_style_lookup colors style_opts st k :
  rcParams (set_default_style colors style_opts st).2 !! k =
    if decide (k = "axes.grid") then Some (RcBool true)
    else if decide (k = "axes.edgecolor") then Some (RcStr "#2B2B2B")
    else if decide (k = "grid.color") then Some (RcStr "#DDE6F6")
    else if decide (k = "axes.facecolor") then Some (RcStr "#FBFBFD")
    else if decide (k = "figure.facecolor") then Some (RcStr "white")
    else if decide (k = "axes.prop_cycle")
      then Some (RcCycler (default CORPORATE_COLORS colors))
    else (default DEFAULT_STYLE style_opts ∪ rcParams st) !! k.
Proof.
  unfold set_default_style. simpl. rewrite !lookup_insert.
  destruct colors, style_opts; simpl; repeat case_decide; congruence.
Qed.




End StyleFacts.


(** * Further properties of the renderers *)

Section RendererFacts.
Context `{DateLib}.
Implicit Types (df : DataFrame) (ax : Axes) (s agg : Series) (top_n : Z).

Lemma index_sort_values_desc_NoDup s :
  NoDup (index s) → NoDup (index (sort_values_desc s)).
Proof. unfold index. by rewrite sort_values_desc_Permutation. Qed.

Lemma index_head_NoDup top_n s : NoDup (index s) → NoDup (index (head top_n s)).
Proof.
  unfold index, head. rewrite fmap_take. intros Hnd.
  eapply sublist_NoDup; [done|apply sublist_take].
Qed.

Lemma category_totals_index_NoDup df cat_col ventas_col agg :
  category_totals df cat_col ventas_col = Ok agg → NoDup (index agg).
Proof.
  intros (s & (c & a & _ & _ & ->)%groupby_sum_inv & ->)%category_totals_inv.
  apply index_sort_values_desc_NoDup, index_group_sum_NoDup.
Qed.

(** Every entry of the per-category sums is a category of the table
    with the sum of its rows. *)
Lemma category_totals_entries n df cat_col ventas_col agg c a k x :
  has_rows n df →
  df !! cat_col = Some c → df !! ventas_col = Some (ColInt a) →
  category_totals df cat_col ventas_col = Ok agg →
  (k, x) ∈ agg →
  k ∈ col_values c ∧ x = Zsum (group_rows k (zip (col_values c) a)).*2.
Proof.
  intros Hn Hc Ha
    (s & (c' & a' & Hc' & Ha' & ->)%groupby_sum_inv & ->)%category_totals_inv Hin.
  rewrite Hc in Hc'. rewrite Ha in Ha'. injection Hc' as <-. injection Ha' as <-.
  rewrite sort_values_desc_Permutation in Hin.
  unfold group_sum in Hin. apply list_elem_of_fmap in Hin as (k' & [= -> ->] & Hk).
  split; [|done].
  rewrite merge_sort_Permutation, elem_of_remove_dups, rows_keys in Hk; [done|].
  rewrite (has_rows_lookup _ _ _ _ Hn Hc).
  rewrite <- (has_rows_lookup _ _ _ _ Hn Ha). apply col_len_int.
Qed.

#[local] Instance by_value_desc_trans :
  Transitive (λ a b : value * Z, (b.2 ≤ a.2)%Z).
Proof. intros a b c. lia. Qed.

(** *** Label assignment on a series with distinct labels *)

Lemma series_sum_cons (e : value * Z) s :
  series_sum (e :: s) = (e.2 + series_sum s)%Z.
Proof. done. Qed.

Lemma setitem_sum_present k v x s :
  NoDup (index s) → (k, x) ∈ s →
  series_sum (setitem k v s) = (series_sum s - x + v)%Z.
Proof.
  unfold index. induction s as [|[k' y] s IH]; simpl.
  - by intros _ ?%elem_of_nil.
  - rewrite NoDup_cons, elem_of_cons. intros [Hk' Hnd] [Heq|Hin].
    + injection Heq as <- <-. rewrite decide_True by done.
      rewrite !series_sum_cons. simpl. lia.
    + case_decide as Hk.
      * subst k'. destruct Hk'. by apply (list_elem_of_fmap_2 fst _ (k, x)).
      * rewrite !series_sum_cons, IH by done. simpl. lia.
Qed.

Lemma setitem_index_present k v s :
  k ∈ index s → index (setitem k v s) = index s.
Proof.
  unfold index. induction s as [|[k' y] s IH]; simpl.
  - by intros ?%elem_of_nil.
  - rewrite elem_of_cons. intros Hin. case_decide as Hk; [done|].
    simpl. f_equal. apply IH. by destruct Hin as [->|?].
Qed.

Lemma setitem_length_le k v s : (length (setitem k v s) ≤ S (length s))%nat.
Proof.
  induction s as [|[k' y] s IH]; simpl; [lia|]. case_decide; simpl; lia.
Qed.

Lemma setitem_Forall (P : value * Z → Prop) k v s :
  (∀ k', P (k', v)) → Forall P s → Forall P (setitem k v s).
Proof.
  intros Hv. induction 1 as [|[k' y] s Hy Hs IH]; simpl.
  - by constructor.
  - case_decide; constructor; auto.
Qed.

(** X4. A renderer called on its own, without the orchestrator's check,
    fails with [KeyError] naming the first column it does not find: the
    grouping column if it is absent, the amount column otherwise. *)
Theorem renderers_missing_column ax df key_col ventas_col top_n :
  df !! key_col = None ∨ df !! ventas_col = None →
  let missing := match df !! key_col with None => key_col | Some _ => ventas_col end in
  plot_ventas_tiempo ax df key_col ventas_col = Err (KeyError missing) ∧
  plot_ventas_por_categoria ax df key_col ventas_col top_n = Err (KeyError missing) ∧
  plot_participacion_pie ax df key_col ventas_col top_n = Err (KeyError missing).
Proof.
  intros Hmissing.
  assert (groupby_sum df key_col ventas_col =
          Err (KeyError match df !! key_col with None => key_col | Some _ => ventas_col end))
    as Hgroup.
  { unfold groupby_sum, getitem.
    destruct (df !! key_col) as [c|]; [|done].
    destruct Hmissing as [|Hv]; [done|]. by rewrite Hv. }
  unfold plot_ventas_tiempo, plot_ventas_por_categoria, plot_participacion_pie.
  by rewrite Hgroup.
Qed.

(** X5. The line of the time renderer is appended to what the surface
    already shows. Its dates are exactly the distinct dates of the
    table, in ascending order; each point carries the sum of the amounts
    of the rows of its date; the points add up to the total of the
    amount column. *)
Theorem time_line_points n df fecha_col ventas_col c a ax :
  has_rows n df →
  df !! fecha_col = Some c →
  df !! ventas_col = Some (ColInt a) →
  ∃ xs ys,
    plot_ventas_tiempo ax df fecha_col ventas_col =
      Ok (_format_eje_fecha
            (set_ylabel "Ventas"
              (set_title "Ventas en el tiempo"
                (add_artist (Line2D xs ys "o") ax)))
            fecha_col) ∧
    Sorted value_le xs ∧ NoDup xs ∧
    (∀ d, d ∈ xs ↔ d ∈ col_values c) ∧
    length ys = length xs ∧
    (∀ i d y, xs !! i = Some d → ys !! i = Some y →
              y = Zsum (group_rows d (zip (col_values c) a)).*2) ∧
    Zsum ys = Zsum a.
Proof.
  intros Hn Hc Ha.
  assert (col_len c = length a) as Hlen.
  { rewrite (has_rows_lookup _ _ _ _ Hn Hc).
    rewrite <- (has_rows_lookup _ _ _ _ Hn Ha). apply col_len_int. }
  set (rows := zip (col_values c) a).
  exists (index (sort_index (group_sum rows))), (values (sort_index (group_sum rows))).
  split.
  { unfold plot_ventas_tiempo. by rewrite (groupby_sum_ok _ _ _ _ _ Hc Ha). }
  assert (index (sort_index (group_sum rows)) ≡ₚ index (group_sum rows)) as Hperm.
  { unfold index. by rewrite sort_index_Permutation. }
  split; [|split; [|split; [|split; [|split]]]].
  - unfold index. apply (Sorted_fmap fst entry_le value_le); [done|].
    apply sort_index_sorted.
  - rewrite Hperm. apply index_group_sum_NoDup.
  - intros d. rewrite Hperm, elem_of_index_group_sum. unfold rows.
    by rewrite rows_keys.
  - unfold index, values. by rewrite !length_fmap.
  - intros i d y Hd Hy. unfold index, values in Hd, Hy.
    rewrite list_lookup_fmap in Hd. rewrite list_lookup_fmap in Hy.
    apply fmap_Some in Hd as ([d' y'] & He & ->).
    rewrite He in Hy. injection Hy as <-. simpl.
    apply list_elem_of_lookup_2 in He. rewrite sort_index_Permutation in He.
    unfold group_sum in He. by apply list_elem_of_fmap in He as (k & [= -> ->] & _).
  - change (series_sum (sort_index (group_sum rows)) = Zsum a).
    rewrite sort_index_Permutation, series_sum_group_sum. unfold rows.
    by rewrite rows_amounts.
Qed.

(** X6. The bars are the largest per-category sums: they come in
    descending order of height, carry distinct categories, each with the
    sum of the amounts of its rows, and for [top_n >= 0] no category
    left out has a larger sum than a category drawn. *)
Theorem bars_are_the_largest n df cat_col ventas_col c a top_n agg ax :
  has_rows n df →
  df !! cat_col = Some c →
  df !! ventas_col = Some (ColInt a) →
  category_totals df cat_col ventas_col = Ok agg →
  (0 ≤ top_n)%Z →
  ∃ bars rest,
    plot_ventas_por_categoria ax df cat_col ventas_col top_n =
      Ok (bar_panel bars (Z.of_nat (length bars)) ax) ∧
    agg = bars ++ rest ∧
    (length bars ≤ Z.to_nat top_n)%nat ∧
    Sorted (λ e1 e2, (e2.2 ≤ e1.2)%Z) bars ∧
    NoDup (index bars) ∧
    (∀ k x, (k, x) ∈ bars →
            k ∈ col_values c ∧ x = Zsum (group_rows k (zip (col_values c) a)).*2) ∧
    (∀ e1 e2, e1 ∈ bars → e2 ∈ rest → (e2.2 ≤ e1.2)%Z).
Proof.
  intros Hn Hc Ha Hagg Htop.
  exists (head top_n agg), (iloc_from top_n agg).
  assert (Sorted (λ e1 e2 : value * Z, (e2.2 ≤ e1.2)%Z) agg) as Hsorted.
  { apply category_totals_inv in Hagg as (s & _ & ->). apply sort_values_desc_sorted. }
  apply Sorted_StronglySorted in Hsorted; [|apply _].
  rewrite <- (head_iloc_from top_n agg) in Hsorted.
  split; [by apply plot_ventas_por_categoria_totals|].
  split; [by rewrite head_iloc_from|].
  split; [unfold head; rewrite length_take, slice_bound_nonneg by done; lia|].
  split; [|split; [|split]].
  - apply StronglySorted_Sorted. by apply StronglySorted_app_1_l in Hsorted.
  - apply index_head_NoDup. by eapply category_totals_index_NoDup.
  - intros k x Hin. apply (category_totals_entries n df cat_col ventas_col agg); try done.
    unfold head in Hin. by apply subseteq_take in Hin.
  - intros e1 e2 H1 H2.
    by apply (StronglySorted_app_1_elem_of _ _ _ e1 e2 Hsorted).
Qed.

(** X7. With a negative [top_n] the bar renderer leaves out the last
    [-top_n] per-category sums, the smallest ones: it draws the number
    of categories plus [top_n] bars, none when that is negative, and the
    title shows that number. *)
Theorem bars_negative_top_n n df cat_col ventas_col top_n agg ax :
  has_rows n df →
  category_totals df cat_col ventas_col = Ok agg →
  (top_n < 0)%Z →
  ∃ bars rest m,
    column_nunique df cat_col = Ok m ∧
    plot_ventas_por_categoria ax df cat_col ventas_col top_n =
      Ok (bar_panel bars (Z.max 0 (Z.of_nat m + top_n)) ax) ∧
    agg = bars ++ rest ∧
    Z.of_nat (length bars) = Z.max 0 (Z.of_nat m + top_n) ∧
    Z.of_nat (length rest) = Z.min (Z.of_nat m) (- top_n).
Proof.
  intros Hn Hagg Htop.
  exists (head top_n agg), (iloc_from top_n agg), (length agg).
  split; [by eapply category_totals_length|].
  assert (Z.of_nat (length (head top_n agg)) =
          Z.max 0 (Z.of_nat (length agg) + top_n)) as Hlen.
  { unfold head, slice_bound. rewrite length_take.
    destruct (Z.ltb_spec top_n 0); lia. }
  split; [rewrite <- Hlen; by apply plot_ventas_por_categoria_totals|].
  split; [by rewrite head_iloc_from|]. split; [done|].
  unfold iloc_from, slice_bound. rewrite length_drop.
  destruct (Z.ltb_spec top_n 0); lia.
Qed.


(** X9. When a category kept among the top is itself labelled "Otros"
    and the rest is positive, no slice is added: the slice of that
    category is given the rest in place of its own sum, so the pie falls
    short of the total by the sum of that category. *)
Theorem pie_bucket_overwrites_category n df cat_col ventas_col top_n agg x ax :
  has_rows n df →
  category_totals df cat_col ventas_col = Ok agg →
  (VStr "Otros", x) ∈ head top_n agg →
  (0 < series_sum (iloc_from top_n agg))%Z →
  ∃ slices total,
    column_sum df ventas_col = Ok total ∧
    plot_participacion_pie ax df cat_col ventas_col top_n = Ok (pie_panel slices ax) ∧
    length slices = length (head top_n agg) ∧
    index slices = index (head top_n agg) ∧
    (VStr "Otros", series_sum (iloc_from top_n agg)) ∈ slices ∧
    series_sum slices = (total - x)%Z.
Proof.
  intros Hn Hagg Hin Hrest.
  exists (pie_series agg top_n), (series_sum agg).
  split; [by eapply category_totals_sum|].
  split; [by apply plot_participacion_pie_totals|].
  rewrite pie_series_rest by done.
  assert (VStr "Otros" ∈ index (head top_n agg)) as Hlabel
    by (unfold index; by apply (list_elem_of_fmap_2 fst _ (VStr "Otros", x))).
  split; [by apply setitem_present|].
  split; [by apply setitem_index_present|].
  split; [apply setitem_elem|].
  rewrite (setitem_sum_present _ _ x); [| |done].
  - rewrite <- (series_sum_split top_n agg). lia.
  - apply index_head_NoDup. by eapply category_totals_index_NoDup.
Qed.


End RendererFacts.

(** ** Concrete runs for the further renderer properties *)

Lemma renderers_missing_column_witness :
  plot_ventas_tiempo blank_axes ex_missing "fecha" "ventas" = Err (KeyError "ventas") ∧
  plot_ventas_por_categoria (H:=iso_dates) blank_axes ex_missing "fecha" "ventas" 6 =
    Err (KeyError "ventas") ∧
  plot_participacion_pie (H:=iso_dates) blank_axes ex_missing "fecha" "ventas" 6 =
    Err (KeyError "ventas").
Proof.
  apply (renderers_missing_column (H:=iso_dates) blank_axes ex_missing "fecha" "ventas" 6).
  right. by vm_compute.
Defined.

Lemma time_line_points_witness :
  ∃ xs ys,
    plot_ventas_tiempo blank_axes ex_df_dates "fecha" "ventas" =
      Ok (_format_eje_fecha
            (set_ylabel "Ventas"
              (set_title "Ventas en el tiempo"
                (add_artist (Line2D xs ys "o") blank_axes)))
            "fecha") ∧
    NoDup xs ∧ Zsum ys = 180%Z.
Proof.
  destruct (time_line_points 3 ex_df_dates "fecha" "ventas"
              (ColDate [20240101; 20240101; 20240102]%Z) [100; 50; 30]%Z blank_axes)
    as (xs & ys & Hplot & _ & Hnd & _ & _ & _ & Hsum).
  - by_evaluation.
  - by vm_compute.
  - by vm_compute.
  - exists xs, ys. split; [exact Hplot|]. split; [exact Hnd|exact Hsum].
Defined.

Lemma bars_are_the_largest_witness :
  ∃ bars rest,
    plot_ventas_por_categoria (H:=iso_dates) blank_axes ex_three "categoria" "ventas" 2 =
      Ok (bar_panel (H:=iso_dates) bars (Z.of_nat (length bars)) blank_axes) ∧
    [(VStr "A", 30%Z); (VStr "B", 20%Z); (VStr "C", 10%Z)] = bars ++ rest ∧
    (∀ e1 e2, e1 ∈ bars → e2 ∈ rest → (e2.2 ≤ e1.2)%Z).
Proof.
  destruct (bars_are_the_largest (H:=iso_dates) 3 ex_three "categoria" "ventas"
              (ColStr ["A"; "B"; "C"]) [30; 20; 10]%Z 2
              [(VStr "A", 30%Z); (VStr "B", 20%Z); (VStr "C", 10%Z)] blank_axes)
    as (bars & rest & Hplot & Hsplit & _ & _ & _ & _ & Hmax).
  - by_evaluation.
  - by vm_compute.
  - by vm_compute.
  - by vm_compute.
  - lia.
  - exists bars, rest. split; [exact Hplot|]. split; [exact Hsplit|exact Hmax].
Defined.

Lemma bars_negative_top_n_witness :
  ∃ bars,
    plot_ventas_por_categoria (H:=iso_dates) blank_axes ex_three "categoria" "ventas" (-1) =
      Ok (bar_panel (H:=iso_dates) bars 2 blank_axes) ∧
    length bars = 2%nat.
Proof.
  destruct (bars_negative_top_n (H:=iso_dates) 3 ex_three "categoria" "ventas" (-1)
              [(VStr "A", 30%Z); (VStr "B", 20%Z); (VStr "C", 10%Z)] blank_axes)
    as (bars & rest & m & Hm & Hplot & _ & Hlen & _).
  - by_evaluation.
  - by vm_compute.
  - lia.
  - vm_compute in Hm. injection Hm as <-.
    exists bars. split; [exact Hplot|]. simpl in Hlen. lia.
Defined.


Lemma pie_bucket_overwrites_category_witness :
  ∃ slices,
    plot_participacion_pie (H:=iso_dates) blank_axes ex_otros "categoria" "ventas" 1 =
      Ok (pie_panel (H:=iso_dates) slices blank_axes) ∧
    length slices = 1%nat ∧ series_sum slices = 50%Z.
Proof.
  destruct (pie_bucket_overwrites_category (H:=iso_dates) 2 ex_otros "categoria" "ventas" 1
              [(VStr "Otros", 100%Z); (VStr "B", 50%Z)] 100 blank_axes)
    as (slices & total & Htotal & Hplot & Hlen & _ & _ & Hsum).
  - by_evaluation.
  - by vm_compute.
  - by_evaluation.
  - by vm_compute.
  - exists slices. split; [exact Hplot|]. split; [exact Hlen|].
    vm_compute in Htotal. injection Htotal as <-. rewrite Hsum. lia.
Defined.


(** * Further properties of the orchestrator *)

Section DashboardFacts.
Context `{DateLib}.
Implicit Types (df : loc) (d dc : DataFrame) (st : state).

Lemma deref_err l st :
  heap st !! l = None → deref l st = (Err (KeyError "<unallocated>"), st).
Proof. intros Hl. unfold deref. by rewrite Hl. Qed.

(** *** Parsing dates *)

Lemma parse_dates_length l ts : parse_dates l = Ok ts → length ts = length l.
Proof.
  revert ts. induction l as [|s l IH]; intros ts; simpl.
  - by intros [= <-].
  - destruct (to_timestamp s); [|done].
    destruct (parse_dates l) as [ts'|]; [|done]. simpl.
    intros [= <-]. simpl. f_equal. by apply IH.
Qed.

Lemma parse_dates_first_failure l1 s l2 :
  Forall (λ x, is_Some (to_timestamp x)) l1 →
  to_timestamp s = None →
  parse_dates (l1 ++ s :: l2) = Err (DateParseError s).
Proof.
  intros Hl1 Hs. induction Hl1 as [|x l1 [t Hx] _ IH]; simpl.
  - by rewrite Hs.
  - by rewrite Hx, IH.
Qed.

Lemma to_datetime_col_len c c' : to_datetime c = Ok c' → col_len c' = col_len c.
Proof.
  unfold col_len. destruct c as [l|l|l]; simpl.
  - destruct (parse_dates l) as [ts|] eqn:Hts; [|done]. simpl. intros [= <-].
    simpl. rewrite !length_fmap. by apply parse_dates_length.
  - intros [= <-]. simpl. by rewrite !length_fmap.
  - by intros [= <-].
Qed.

Lemma to_datetime_date_typed c :
  is_datetime c = true → to_datetime c = Ok c.
Proof. by destruct c. Qed.

(** The working copy has the rows of the table. *)
Lemma working_copy_rows n d fecha_col c c' :
  has_rows n d → d !! fecha_col = Some c → to_datetime c = Ok c' →
  has_rows n (<[fecha_col := c']> d).
Proof.
  intros Hn Hc Hparse. apply map_Forall_insert_2; [|done].
  rewrite (to_datetime_col_len _ _ Hparse). by apply (has_rows_lookup n d fecha_col).
Qed.

(** *** One statement for both date paths *)

Lemma generar_dashboard_run st df d fecha_col cat_col ventas_col c c' :
  heap st !! df = Some d →
  d !! fecha_col = Some c →
  is_Some (d !! cat_col) →
  is_Some (d !! ventas_col) →
  to_datetime c = Ok c' →
  generar_dashboard df fecha_col cat_col ventas_col st =
    (render_panels (<[fecha_col := c']> d) fecha_col cat_col ventas_col,
     mkState (<[fresh (dom (heap st)) := <[fecha_col := c']> d]> (heap st))
             (rcParams st) (S (open_figures st))).
Proof.
  intros Hd Hf Hc Hv Hparse. destruct (is_datetime c) eqn:Hdt.
  - rewrite (to_datetime_date_typed _ Hdt) in Hparse. injection Hparse as <-.
    rewrite (insert_id d fecha_col c Hf).
    by apply (generar_dashboard_keeps st df d _ _ _ c).
  - by apply (generar_dashboard_converts st df d _ _ _ c c').
Qed.

Lemma render_panels_shape dc fecha_col cat_col ventas_col fig :
  render_panels dc fecha_col cat_col ventas_col = Ok fig →
  figsize fig = (14, 9)%Z ∧
  suptitle fig = Some ("Dashboard de Ventas", 20%Z) ∧
  axis_on (axs11 fig) = false.
Proof.
  unfold render_panels.
  destruct (plot_ventas_tiempo _ _ _ _); [|done].
  destruct (plot_ventas_por_categoria _ _ _ _ _); [|done].
  destruct (plot_participacion_pie _ _ _ _ _); [|done].
  destruct (texto_kpi _ _ _ _); [|done].
  simpl. by intros [= <-].
Qed.

(** X11. Whatever the arguments and whatever the outcome, a run of
    [generar_dashboard] leaves the style parameters and every dataframe
    already in the store as they were, and registers at most one figure.
    When it returns a figure, exactly one figure has been registered,
    of size 14 by 9, under the title "Dashboard de Ventas", with the
    axes of the fourth panel switched off. *)
Theorem dashboard_store_frame st df fecha_col cat_col ventas_col :
  let r := (generar_dashboard df fecha_col cat_col ventas_col st).1 in
  let st' := (generar_dashboard df fecha_col cat_col ventas_col st).2 in
  rcParams st' = rcParams st ∧
  (∀ l d0, heap st !! l = Some d0 → heap st' !! l = Some d0) ∧
  (open_figures st' = open_figures st ∨ open_figures st' = S (open_figures st)) ∧
  (∀ fig, r = Ok fig →
     open_figures st' = S (open_figures st) ∧
     figsize fig = (14, 9)%Z ∧
     suptitle fig = Some ("Dashboard de Ventas", 20%Z) ∧
     axis_on (axs11 fig) = false).
Proof.
  cbv zeta.
  assert (∀ d1 l d0, heap st !! l = Some d0 →
            <[fresh (dom (heap st)) := d1]> (heap st) !! l = Some d0) as Hkeep.
  { intros d1 l d0 Hl. rewrite lookup_insert_ne; [done|].
    by apply (fresh_not_allocated st d0). }
  destruct (heap st !! df) as [d|] eqn:Hd.
  2:{ unfold generar_dashboard. rewrite (bind_err _ _ _ _ _ (deref_err _ _ Hd)).
      simpl. split; [done|]. split; [done|]. split; [by left|]. by intros fig. }
  destruct (d !! fecha_col) as [c|] eqn:Hf;
    [destruct (d !! cat_col) as [cc|] eqn:Hc;
      [destruct (d !! ventas_col) as [vc|] eqn:Hv|]|].
  2-4: unfold generar_dashboard;
       rewrite (bind_ok _ _ _ _ _ (deref_ok _ _ _ Hd));
       rewrite columns_absent by auto;
       simpl; (split; [done|]); (split; [done|]); (split; [by left|]);
       by intros fig.
  destruct (to_datetime c) as [c'|e] eqn:Hparse.
  - rewrite (generar_dashboard_run st df d _ _ _ c c') by eauto.
    simpl. split; [done|]. split; [by apply Hkeep|]. split; [by right|].
    intros fig Hfig. split; [done|]. by apply render_panels_shape in Hfig.
  - assert (is_datetime c = false) as Hdt.
    { destruct (is_datetime c) eqn:Hdt; [|done].
      by rewrite (to_datetime_date_typed _ Hdt) in Hparse. }
    rewrite (generar_dashboard_parse_failure st df d _ _ _ c e) by eauto.
    simpl. split; [done|]. split; [by apply Hkeep|]. split; [by left|].
    by intros fig.
Qed.

(** X12. When a date of a string-typed date column does not parse, the
    run fails with the parser's error on the first such date; no figure
    is registered, and the style parameters and every dataframe already
    in the store are as before. *)
Theorem dashboard_unparseable_date st df d fecha_col cat_col ventas_col l1 s l2 :
  heap st !! df = Some d →
  d !! fecha_col = Some (ColStr (l1 ++ s :: l2)) →
  is_Some (d !! cat_col) →
  is_Some (d !! ventas_col) →
  Forall (λ x, is_Some (to_timestamp x)) l1 →
  to_timestamp s = None →
  ∃ st',
    generar_dashboard df fecha_col cat_col ventas_col st = (Err (DateParseError s), st') ∧
    open_figures st' = open_figures st ∧
    rcParams st' = rcParams st ∧
    (∀ l d0, heap st !! l = Some d0 → heap st' !! l = Some d0).
Proof.
  intros Hd Hf Hc Hv Hl1 Hs. eexists. split.
  - apply (generar_dashboard_parse_failure st df d _ _ _ (ColStr (l1 ++ s :: l2)));
      try done.
    simpl. by rewrite parse_dates_first_failure.
  - simpl. repeat split.
    intros l d0 Hl. rewrite lookup_insert_ne; [done|].
    by apply (fresh_not_allocated st d0).
Qed.

End DashboardFacts.

(** * How the panels of one dashboard agree *)

Section DashboardPanels.
Context `{DateLib}.
Implicit Types (df : loc) (d dc : DataFrame) (st : state).

Lemma mean_Permutation (s s' : Series) : s ≡ₚ s' → mean s = mean s'.
Proof.
  intros Hp. destruct s as [|e s], s' as [|e' s']; [done| | |].
  - by apply Permutation_nil_cons in Hp.
  - symmetry in Hp. by apply Permutation_nil_cons in Hp.
  - change (Some (Qred (series_sum (e :: s) # Pos.of_nat (length (e :: s)))) =
            Some (Qred (series_sum (e' :: s') # Pos.of_nat (length (e' :: s'))))).
    by rewrite Hp.
Qed.

Lemma category_totals_ok dc cat_col ventas_col cc a :
  dc !! cat_col = Some cc → dc !! ventas_col = Some (ColInt a) →
  category_totals dc cat_col ventas_col =
    Ok (sort_values_desc (group_sum (zip (col_values cc) a))).
Proof.
  intros Hc Hv. unfold category_totals. by rewrite (groupby_sum_ok _ _ _ _ _ Hc Hv).
Qed.



End DashboardPanels.

Lemma dashboard_unparseable_date_witness :
  ∃ st',
    generar_dashboard (H:=iso_dates) 0%nat "fecha" "categoria" "ventas"
      (state_with ex_bad_date) = (Err (DateParseError "hoy"), st') ∧
    open_figures st' = 0%nat.
Proof.
  destruct (dashboard_unparseable_date (H:=iso_dates) (state_with ex_bad_date) 0%nat
              ex_bad_date "fecha" "categoria" "ventas" ["2024-01-01"] "hoy" ["2024-01-03"])
    as (st' & Hrun & Hfigs & _).
  - by vm_compute.
  - by vm_compute.
  - by_evaluation.
  - by_evaluation.
  - repeat constructor. by_evaluation.
  - by vm_compute.
  - exists st'. split; [exact Hrun|exact Hfigs].
Defined.



(** * The demonstration run *)

Section Demo.
Context `{DateLib}.

(** The figure drawn on a working copy, written out. *)
Lemma render_panels_explicit dc fecha_col cat_col ventas_col c cc a :
  dc !! fecha_col = Some c →
  dc !! cat_col = Some cc →
  dc !! ventas_col = Some (ColInt a) →
  let daily := group_sum (zip (col_values c) a) in
  let line := sort_index daily in
  let agg := sort_values_desc (group_sum (zip (col_values cc) a)) in
  render_panels dc fecha_col cat_col ventas_col =
    Ok (mkFigure (14, 9)%Z
          (_format_eje_fecha
             (set_ylabel "Ventas"
               (set_title "Ventas en el tiempo"
                 (add_artist (Line2D (index line) (values line) "o") blank_axes)))
             fecha_col)
          (bar_panel (head 8 agg) (Z.of_nat (length (head 8 agg))) blank_axes)
          (pie_panel (pie_series agg 6) blank_axes)
          (add_artist
             (Text (2 # 100) (95 # 100)
                ("Total ventas: " +:+ format_comma_0f (inject_Z (Zsum a)) +:+ nl +:+
                 "Promedio diario: " +:+ format_float (mean daily) +:+ nl +:+
                 "Días: " +:+ pretty (nunique (col_values c)) +:+ nl +:+
                 "Categorías: " +:+ pretty (nunique (col_values cc)))
                "top" 12 "monospace")
             (axis_off blank_axes))
          (Some ("Dashboard de Ventas", 20%Z))
          (Some (0, 3 # 100, 1, 95 # 100)%Q)).
Proof.
  intros Hf Hc Hv daily line agg.
  pose proof (category_totals_ok dc cat_col ventas_col cc a Hc Hv) as Hagg.
  unfold render_panels, plot_ventas_tiempo, texto_kpi, total_ventas, promedio_diario.
  rewrite (plot_ventas_por_categoria_totals _ _ _ _ _ _ Hagg).
  rewrite (plot_participacion_pie_totals _ _ _ _ _ _ Hagg).
  rewrite (groupby_sum_ok _ _ _ _ _ Hf Hv), (column_sum_ok _ _ _ Hv).
  rewrite (column_nunique_ok _ _ _ Hf), (column_nunique_ok _ _ _ Hc).
  reflexivity.
Qed.

(** *** The generated table *)

Lemma date_range_end_NoDup today periods : NoDup (date_range_end today periods).
Proof.
  unfold date_range_end. apply NoDup_fmap_2_strong; [|apply NoDup_seq].
  intros i j [_ Hi]%elem_of_seq [_ Hj]%elem_of_seq Heq.
  unfold one_day in Heq. lia.
Qed.

Lemma date_range_end_sorted today periods :
  Sorted Z.le (date_range_end today periods).
Proof.
  unfold date_range_end.
  assert (∀ j m, (j + m ≤ periods)%nat →
    Sorted Z.le ((λ i, today - Z.of_nat (periods - 1 - i) * one_day)%Z <$> seq j m))
    as Hgen; [|by apply Hgen].
  intros j m. revert j. induction m as [|m IH]; intros j Hj; csimpl; [constructor|].
  constructor; [apply IH; lia|].
  destruct m as [|m]; csimpl; constructor. unfold one_day. lia.
Qed.

Lemma demo_keys_cons f fechas :
  demo_keys (f :: fechas) =
    [(f, "A"); (f, "B"); (f, "C"); (f, "D"); (f, "E")] ++ demo_keys fechas.
Proof. done. Qed.

Lemma demo_keys_length fechas : length (demo_keys fechas) = (5 * length fechas)%nat.
Proof.
  induction fechas as [|f fechas IH]; [done|].
  rewrite demo_keys_cons, length_app, IH. simpl. lia.
Qed.

Lemma demo_keys_dates fechas x : x ∈ (demo_keys fechas).*1 ↔ x ∈ fechas.
Proof.
  induction fechas as [|f fechas IH].
  - done.
  - rewrite demo_keys_cons, fmap_app, elem_of_app, IH, elem_of_cons. simpl.
    rewrite !elem_of_cons, elem_of_nil. tauto.
Qed.

Lemma demo_keys_categories fechas x :
  fechas ≠ [] → x ∈ (demo_keys fechas).*2 ↔ x ∈ categorias.
Proof.
  induction fechas as [|f fechas IH]; [done|]. intros _.
  rewrite demo_keys_cons, fmap_app, elem_of_app. simpl.
  destruct fechas as [|f' fechas].
  - change (demo_keys []) with (@nil (Z * string)). simpl.
    rewrite elem_of_nil. unfold categorias. tauto.
  - rewrite IH by done. unfold categorias. simpl. rewrite !elem_of_cons. tauto.
Qed.

(** Counting distinct values through a duplicate-free list with the
    same elements. *)
Lemma nunique_same_elements (l l' : list value) :
  NoDup l → (∀ x, x ∈ l' ↔ x ∈ l) → remove_dups l' ≡ₚ l.
Proof.
  intros Hnd Hel. apply NoDup_Permutation; [apply NoDup_remove_dups|done|].
  intros x. by rewrite elem_of_remove_dups.
Qed.

Lemma Zsum_draw_bounds (draw : nat → Z) (lo hi : Z) j m :
  (∀ k, lo ≤ draw k < hi)%Z →
  (lo * Z.of_nat m ≤ Zsum (draw <$> seq j m) ≤ (hi - 1) * Z.of_nat m)%Z.
Proof.
  intros Hdraw. revert j. induction m as [|m IH]; intros j.
  - simpl. lia.
  - change (seq j (S m)) with (j :: seq (S j) m). rewrite fmap_cons, Zsum_cons.
    specialize (IH (S j)). specialize (Hdraw j). lia.
Qed.

(** X15. The demonstration run, for any current time and any stream
    of the random generator with values from 50 to 499: the style is
    configured with the corporate colours, one figure is registered and
    returned; its line runs over the 30 consecutive days that end today,
    its bar panel shows the five categories under "Top 5 categorías por
    ventas", its pie has one slice per category and no "Otros", and its
    text block reports 30 days, 5 categories and the total of the 150
    amounts, which lies between 7500 and 74850. *)
Theorem demo_dashboard today draw st :
  (∀ k, 50 ≤ draw k < 500)%Z →
  let total := Zsum (draw <$> seq 0 150) in
  ∃ fig st' ys agg promedio,
    main today draw st = (Ok fig, st') ∧
    rcParams st' !! "axes.prop_cycle" = Some (RcCycler CORPORATE_COLORS) ∧
    open_figures st' = S (open_figures st) ∧
    axs00 fig =
      _format_eje_fecha
        (set_ylabel "Ventas"
          (set_title "Ventas en el tiempo"
            (add_artist (Line2D (VDate <$> date_range_end today 30) ys "o") blank_axes)))
        "fecha" ∧
    length ys = 30%nat ∧
    Zsum ys = total ∧
    axs01 fig = bar_panel agg 5 blank_axes ∧
    axs10 fig = pie_panel agg blank_axes ∧
    index agg ≡ₚ VStr <$> categorias ∧
    series_sum agg = total ∧
    artists (axs11 fig) =
      [Text (2 # 100) (95 # 100)
         ("Total ventas: " +:+ format_comma_0f (inject_Z total) +:+ nl +:+
          "Promedio diario: " +:+ format_comma_0f promedio +:+ nl +:+
          "Días: 30" +:+ nl +:+ "Categorías: 5")
         "top" 12 "monospace"] ∧
    (promedio * 30 == inject_Z total)%Q ∧
    (7500 ≤ total ≤ 74850)%Z.
Proof.
  intros Hdraw total.
  set (fechas := date_range_end today 30).
  set (keys := demo_keys fechas).
  assert (length keys = 150%nat) as Hkeys.
  { unfold keys. rewrite demo_keys_length. unfold fechas, date_range_end.
    by rewrite length_fmap, length_seq. }
  set (demo := demo_frame today draw).
  set (a := draw <$> seq 0 150).
  assert (demo !! "fecha" = Some (ColDate keys.*1)) as Hf by done.
  assert (demo !! "categoria" = Some (ColStr keys.*2)) as Hc by done.
  assert (demo !! "ventas" = Some (ColInt a)) as Hv.
  { unfold a. rewrite <- Hkeys. done. }
  assert (length a = 150%nat) as Ha by (unfold a; by rewrite length_fmap, length_seq).
  assert (col_len (ColDate keys.*1) = length a ∧ col_len (ColStr keys.*2) = length a)
    as [Hlen_t Hlen_c].
  { unfold col_len, col_values. by rewrite !length_fmap, Hkeys, Ha. }
  (* the distinct dates and categories *)
  assert (NoDup (VDate <$> fechas)) as Hnd_dates.
  { apply NoDup_fmap_2_strong; [by intros x y _ _ [= ->]|].
    apply date_range_end_NoDup. }
  assert (remove_dups (col_values (ColDate keys.*1)) ≡ₚ VDate <$> fechas) as Hdates.
  { apply nunique_same_elements; [done|]. intros x. unfold col_values.
    rewrite !list_elem_of_fmap.
    split; intros (y & -> & Hy); exists y; (split; [done|]);
      by apply (demo_keys_dates fechas y). }
  assert (remove_dups (col_values (ColStr keys.*2)) ≡ₚ VStr <$> categorias) as Hcats.
  { apply nunique_same_elements; [by_evaluation|]. intros x. unfold col_values.
    rewrite !list_elem_of_fmap.
    assert (fechas ≠ []) as Hne by done.
    split; intros (y & -> & Hy); exists y; (split; [done|]);
      by apply (demo_keys_categories fechas y Hne). }
  (* the run *)
  set (st1 := (set_default_style None None st).2).
  set (l := fresh (dom (heap st1))).
  set (st2 := mkState (<[l := demo]> (heap st1)) (rcParams st1) (open_figures st1)).
  assert (heap st2 !! l = Some demo) as Hl by apply lookup_insert_eq.
  set (daily := group_sum (zip (col_values (ColDate keys.*1)) a)).
  set (line := sort_index daily).
  set (agg := sort_values_desc (group_sum (zip (col_values (ColStr keys.*2)) a))).
  assert (length daily = 30%nat) as Hlen_daily.
  { unfold daily. rewrite length_group_sum, rows_keys by done.
    unfold nunique. rewrite Hdates. unfold fechas, date_range_end.
    by rewrite !length_fmap, length_seq. }
  assert (series_sum daily = total) as Hsum_daily.
  { unfold daily. by rewrite series_sum_group_sum, rows_amounts. }
  assert (length agg = 5%nat) as Hlen_agg.
  { unfold agg. rewrite length_sort_values_desc, length_group_sum, rows_keys by done.
    unfold nunique. by rewrite Hcats. }
  assert (daily ≠ []) as Hne by (intros Hnil; by rewrite Hnil in Hlen_daily).
  destruct (mean_spec daily Hne) as (promedio & Hmean & Hprom).
  exists
    (mkFigure (14, 9)%Z
       (_format_eje_fecha
          (set_ylabel "Ventas"
            (set_title "Ventas en el tiempo"
              (add_artist (Line2D (index line) (values line) "o") blank_axes)))
          "fecha")
       (bar_panel (head 8 agg) (Z.of_nat (length (head 8 agg))) blank_axes)
       (pie_panel (pie_series agg 6) blank_axes)
       (add_artist
          (Text (2 # 100) (95 # 100)
             ("Total ventas: " +:+ format_comma_0f (inject_Z (Zsum a)) +:+ nl +:+
              "Promedio diario: " +:+ format_float (mean daily) +:+ nl +:+
              "Días: " +:+ pretty (nunique (col_values (ColDate keys.*1))) +:+ nl +:+
              "Categorías: " +:+ pretty (nunique (col_values (ColStr keys.*2))))
             "top" 12 "monospace")
          (axis_off blank_axes))
       (Some ("Dashboard de Ventas", 20%Z))
       (Some (0, 3 # 100, 1, 95 # 100)%Q)),
    (mkState (<[fresh (dom (heap st2)) := demo]> (heap st2))
             (rcParams st2) (S (open_figures st2))),
    (values line), agg, promedio.
  split.
  { unfold main.
    assert (set_default_style None None st = (Ok (), st1)) as Hstyle by done.
    rewrite (bind_ok _ _ _ _ _ Hstyle).
    assert (alloc demo st1 = (Ok l, st2)) as Halloc by done.
    rewrite (bind_ok _ _ _ _ _ Halloc).
    rewrite (generar_dashboard_keeps st2 l demo _ _ _ (ColDate keys.*1)) by eauto.
    by rewrite (render_panels_explicit demo _ _ _ _ _ _ Hf Hc Hv). }
  assert (head 8 agg = agg) as Hhead by (apply head_all; lia).
  unfold st2. cbn [axs00 axs01 axs10 axs11 rcParams open_figures].
  split; [|split; [done|split; [|split; [|split; [|split; [|split;
    [|split; [|split; [|split; [|split]]]]]]]]]].
  - unfold st1. by rewrite set_default_style_lookup.
  - assert (index line = VDate <$> fechas) as Hxs; [|by rewrite Hxs].
    apply (Sorted_unique value_le).
    + unfold index. apply (Sorted_fmap fst entry_le value_le); [done|].
      apply sort_index_sorted.
    + apply (Sorted_fmap VDate Z.le value_le); [done|]. apply date_range_end_sorted.
    + unfold index, line. rewrite sort_index_Permutation. fold (index daily).
      unfold daily. by rewrite index_group_sum_Permutation, rows_keys.
  - unfold values, line. by rewrite length_fmap, sort_index_Permutation.
  - change (series_sum line = total). unfold line.
    by rewrite sort_index_Permutation.
  - by rewrite Hhead, Hlen_agg.
  - rewrite pie_series_all; [done|lia].
  - unfold index, agg. rewrite sort_values_desc_Permutation. fold (index (group_sum
      (zip (col_values (ColStr keys.*2)) a))).
    by rewrite index_group_sum_Permutation, rows_keys.
  - unfold agg.
    by rewrite series_sum_sort_values_desc, series_sum_group_sum, rows_amounts.
  - rewrite Hmean. unfold nunique. rewrite Hdates, Hcats.
    unfold fechas, date_range_end. rewrite !length_fmap, length_seq. done.
  - rewrite Hlen_daily, Hsum_daily in Hprom. exact Hprom.
  - unfold total. pose proof (Zsum_draw_bounds draw 50 500 0 150 Hdraw). lia.
Qed.

End Demo.

Lemma demo_dashboard_witness :
  ∃ fig st',
    main (H:=iso_dates) 0 (λ k, 50 + Z.of_nat k `mod` 450)%Z (mkState ∅ ∅ 0) =
      (Ok fig, st') ∧
    title (axs01 fig) = "Top 5 categorías por ventas" ∧
    open_figures st' = 1%nat.
Proof.
  destruct (demo_dashboard (H:=iso_dates) 0 (λ k, 50 + Z.of_nat k `mod` 450)%Z
              (mkState ∅ ∅ 0))
    as (fig & st' & ys & agg & promedio & Hrun & _ & Hfigs & _ & _ & _ & Hbar & _).
  - intros k. pose proof (Z.mod_pos_bound (Z.of_nat k) 450). lia.
  - exists fig, st'. split; [exact Hrun|]. split; [by rewrite Hbar|exact Hfigs].
Defined.

(** * Independence of the order of the rows *)

Section RowOrder.
Context `{DateLib}.
Implicit Types (df : DataFrame) (idx : list nat).

Lemma nunique_Permutation (l l' : list value) : l ≡ₚ l' → nunique l = nunique l'.
Proof.
  intros Hp. unfold nunique. apply Permutation_length.
  apply NoDup_Permutation; [apply NoDup_remove_dups..|].
  intros x. by rewrite !elem_of_remove_dups, Hp.
Qed.

Lemma column_sum_iloc n df idx col :
  has_rows n df → idx ≡ₚ seq 0 n →
  column_sum (iloc idx df) col = column_sum df col.
Proof.
  intros Hn Hp. unfold column_sum, getitem, iloc. rewrite lookup_fmap.
  destruct (df !! col) as [[l|a|l]|] eqn:Hcol; try done. simpl. f_equal.
  apply Zsum_Permutation, reindex_Permutation.
  by rewrite <- col_len_int, (has_rows_lookup _ _ _ _ Hn Hcol).
Qed.

Lemma column_nunique_iloc n df idx col :
  has_rows n df → idx ≡ₚ seq 0 n →
  column_nunique (iloc idx df) col = column_nunique df col.
Proof.
  intros Hn Hp. unfold column_nunique, getitem, iloc. rewrite lookup_fmap.
  destruct (df !! col) as [c|] eqn:Hcol; [|done]. simpl. f_equal.
  rewrite col_values_iloc. apply nunique_Permutation, reindex_Permutation.
  pose proof (has_rows_lookup _ _ _ _ Hn Hcol) as Hlen. unfold col_len in Hlen.
  by rewrite Hlen.
Qed.

Lemma render_panels_iloc n df idx fecha_col cat_col ventas_col :
  has_rows n df → idx ≡ₚ seq 0 n →
  render_panels (iloc idx df) fecha_col cat_col ventas_col =
    render_panels df fecha_col cat_col ventas_col.
Proof.
  intros Hn Hp.
  unfold render_panels, plot_ventas_tiempo, plot_ventas_por_categoria,
    plot_participacion_pie, texto_kpi, total_ventas, promedio_diario.
  rewrite !(groupby_sum_iloc n df idx) by done.
  rewrite (column_sum_iloc n df idx) by done.
  by rewrite !(column_nunique_iloc n df idx) by done.
Qed.

Lemma parse_dates_lookup_Some l ts i s :
  parse_dates l = Ok ts → l !! i = Some s →
  ∃ t, to_timestamp s = Some t ∧ ts !! i = Some t.
Proof.
  revert ts i. induction l as [|s' l IH]; intros ts i; simpl; [done|].
  destruct (to_timestamp s') as [t'|] eqn:Hs'; [|done].
  destruct (parse_dates l) as [ts'|]; [|done]. simpl. intros [= <-].
  destruct i as [|i]; simpl.
  - intros [= <-]. eauto.
  - by apply IH.
Qed.

Lemma parse_dates_lookup_None l ts i :
  parse_dates l = Ok ts → l !! i = None → ts !! i = None.
Proof.
  intros Hparse Hnone. apply lookup_ge_None. apply lookup_ge_None in Hnone.
  by rewrite (parse_dates_length l ts Hparse).
Qed.

Lemma parse_dates_reindex l ts idx :
  parse_dates l = Ok ts → parse_dates (reindex idx l) = Ok (reindex idx ts).
Proof.
  intros Hparse. unfold reindex. induction idx as [|i idx IH]; [done|].
  csimpl. destruct (l !! i) as [s|] eqn:Hs.
  - destruct (parse_dates_lookup_Some l ts i s Hparse Hs) as (t & Ht & Hti).
    rewrite Hti. simpl. by rewrite Ht, IH.
  - by rewrite (parse_dates_lookup_None l ts i Hparse Hs).
Qed.

Lemma to_datetime_iloc c c' idx :
  to_datetime c = Ok c' → to_datetime (col_iloc idx c) = Ok (col_iloc idx c').
Proof.
  destruct c as [l|l|l]; simpl.
  - destruct (parse_dates l) as [ts|] eqn:Hts; [|done]. simpl. intros [= <-].
    by rewrite (parse_dates_reindex l ts idx Hts).
  - by intros [= <-].
  - by intros [= <-].
Qed.



End RowOrder.


